(** * Admin account authentication and confirmation

    A shallow embedding of the admin model (AdminSchema) and of the four
    request handlers of the admin authentication controller: [register],
    [login], [verifyConfirm] and [resendConfirmOtp].

    The handlers are written as functions from a world (the admins
    collection and the mails delivered so far) and a request body to the
    response sent, if any, and the new world.  What the handlers cannot
    decide themselves (the random draws, the salt, whether a mail is
    delivered, whether the store applies a write) is read from an
    environment.

    The delete handlers of the state and carousel controllers,
    [StateDelete] and [CauroselDelete], are embedded the same way over a
    collection keyed by id. *)

From stdpp Require Import base list strings gmap.
From Stdlib Require Import Ascii.

Local Open Scope string_scope.

(** ** External libraries

    The sanitizers and validators of express-validator, bcrypt and
    jsonwebtoken are libraries; the handlers are generic in them. *)

Class Validator := {
  trim : string -> string;
  escape : string -> string;
  isEmail : string -> bool;
  isAlphanumeric : string -> bool
}.

Class Bcrypt := {
  (* bcrypt.hash(data, rounds), with the salt it draws made explicit *)
  bcrypt_hash : string -> nat -> nat -> string;
  (* bcrypt.compare(data, encrypted) *)
  bcrypt_compare : string -> string -> bool
}.

(** The payload signed by the handlers: [_id], [first_name], [last_name]
    and [email_id] of the account. *)
Record JwtPayload := {
  jwt_id : nat;
  jwt_first_name : string;
  jwt_last_name : string;
  jwt_email_id : string
}.

Class Jwt := {
  (* jwt.sign(payload, secret, { expiresIn }) *)
  jwt_sign : JwtPayload -> string -> string -> string
}.

(** process.env and helpers/constants. *)
Record Config := {
  JWT_SECRET : string;
  JWT_TIMEOUT_DURATION : string;
  confirmEmails_from : string
}.

(** ** AdminModel *)

Module AdminModel.

(** The paths declared by AdminSchema.  A document's [_id] is its
    position in the collection (documents are never removed).  The two
    dates that [timestamps: true] adds to every document, [createdAt] and
    [updatedAt], are kept beside this record: see [Dated]. *)
Record Admin := {
  first_name : string;
  last_name : string;
  email_id : string;
  password : string;
  isConfirmed : bool;
  is_active : bool;
  confirmOTP : option string;
  otpTries : nat;
  status : bool;
  phone_number : string;
  image : option string;
  designation : string;
  address : string;
  city : string;
  state : string;
  post_code : string
}.

(** Schema defaults ([default: 1] on a Boolean path is [true]). *)
Definition default_isConfirmed : bool := true.
Definition default_is_active : bool := true.
Definition default_otpTries : nat := 0.
Definition default_status : bool := true.

(** A document read from the collection. *)
Record Document := { _id : nat; doc : Admin }.

(** The two query shapes the controller uses. *)
Inductive Query :=
| by_email_id (value : string)
| by_phone_number (value : string).

Definition matches (q : Query) (a : Admin) : bool :=
  match q with
  | by_email_id v => bool_decide (email_id a = v)
  | by_phone_number v => bool_decide (phone_number a = v)
  end.

(** AdminModel.findOne(query): the first matching document. *)
Definition findOne (q : Query) (c : list Admin) : option Document :=
  (fun p => {| _id := fst p; doc := snd p |}) <$> list_find (matches q) c.

(** The update document [{ isConfirmed: .., confirmOTP: .. }], which is
    also what [user.save()] writes after the assignments
    [user.isConfirmed = ..; user.confirmOTP = ..]. *)
Definition set_confirmation (c : bool) (otp : option string) (a : Admin) : Admin :=
  {| first_name := first_name a;
     last_name := last_name a;
     email_id := email_id a;
     password := password a;
     isConfirmed := c;
     is_active := is_active a;
     confirmOTP := otp;
     otpTries := otpTries a;
     status := status a;
     phone_number := phone_number a;
     image := image a;
     designation := designation a;
     address := address a;
     city := city a;
     state := state a;
     post_code := post_code a |}.

(** Two versions of a document that differ at most in [isConfirmed] and
    [confirmOTP]. *)
Definition frame (a a' : Admin) : Prop :=
  first_name a' = first_name a /\ last_name a' = last_name a
  /\ email_id a' = email_id a /\ password a' = password a
  /\ is_active a' = is_active a /\ otpTries a' = otpTries a
  /\ status a' = status a /\ phone_number a' = phone_number a
  /\ image a' = image a /\ designation a' = designation a
  /\ address a' = address a /\ city a' = city a
  /\ state a' = state a /\ post_code a' = post_code a.

End AdminModel.
Import AdminModel.

(** ** Requests and responses *)

(** req.body: the fields the four handlers read. *)
Module Body.
Record t := {
  first_name : string;
  last_name : string;
  email_id : string;
  password : string;
  phone_number : string;
  designation : string;
  address : string;
  city : string;
  state : string;
  post_code : string;
  otp : string
}.
End Body.

(** An entry of [errors.array()]. *)
Record FieldError := { param : string; msg : string }.

Inductive Failure := DeliveryError | StoreError.

(** userData as built by [register]. *)
Record Registered := {
  reg_id : nat;
  reg_first_name : string;
  reg_last_name : string;
  reg_email_id : string;
  reg_phone_number : string;
  reg_designation : string;
  reg_address : string;
  reg_city : string;
  reg_state : string;
  reg_post_code : string
}.

Inductive Data :=
| errors_array (errors : list FieldError)
| registered (userData : Registered)
| session (userData : JwtPayload) (token : string).

(** One constructor per helper of apiResponse that the handlers call. *)
Inductive Response :=
| successResponse (message : string)
| successResponseWithData (message : string) (data : Data)
| ErrorResponse (err : Failure)
| validationErrorWithData (message : string) (data : Data)
| unauthorizedResponse (message : string).

(** ** World and environment *)

Record Mail := {
  mail_from : string;
  mail_to : string;
  mail_subject : string;
  mail_html : string
}.

Record World := {
  admins : list Admin;
  outbox : list Mail
}.

Record Env := {
  draw : nat -> nat;          (* the random source behind Math.random *)
  salt : nat;                 (* the salt bcrypt draws *)
  delivers : Mail -> bool;    (* does the transport deliver this mail? *)
  store_accepts : bool        (* does the store apply the write? *)
}.

(** Modelled from the spec: [send] of helpers/mailer, whose source is
    missing.  The spec gives
    [send(from, to, subject, htmlBody) -> ok | DeliveryError]: a delivered
    mail joins the outbox, an undelivered one rejects the promise. *)
Definition mailer_send (env : Env) (m : Mail) (w : World) : option World :=
  if delivers env m
  then Some {| admins := admins w; outbox := outbox w ++ [m] |}
  else None.

(** The character of a decimal digit. *)
Definition digit_char (d : nat) : ascii := ascii_of_nat (48 + d).

(** The [i]-th digit drawn: the leading one is not zero. *)
Definition otp_digit (draw : nat -> nat) (i : nat) : nat :=
  match i with
  | 0 => 1 + draw 0 mod 9
  | S _ => draw i mod 10
  end.

(** Modelled from the spec: [randomNumber] of helpers/utility, whose
    source is missing.  The spec calls the result of [randomNumber(6)] a
    6-digit numeric one-time code: [length] decimal digits are drawn. *)
Definition randomNumber (draw : nat -> nat) (length : nat) : string :=
  String.string_of_list_ascii ((fun i => digit_char (otp_digit draw i)) <$> seq 0 length).

Definition isDigit (c : ascii) : bool :=
  ((48 <=? nat_of_ascii c) && (nat_of_ascii c <=? 57))%nat.

(** A string of exactly [n] decimal digits. *)
Definition numeric (n : nat) (s : string) : Prop :=
  String.length s = n /\ Forall (fun c => isDigit c = true) (String.list_ascii_of_string s).

(** ** Store writes *)

(** [user.save()] of a new document: appended to the collection. *)
Definition save_new (env : Env) (a : Admin) (w : World) : Failure + Document * World :=
  if store_accepts env
  then inr ({| _id := length (admins w); doc := a |},
            {| admins := admins w ++ [a]; outbox := outbox w |})
  else inl StoreError.

(** [user.save()] of a document read earlier: the modified paths are
    written to the document with that [_id]. *)
Definition save_modified (env : Env) (id : nat) (f : Admin -> Admin) (w : World)
  : Failure + World :=
  if store_accepts env
  then inr {| admins := alter f id (admins w); outbox := outbox w |}
  else inl StoreError.

(** [AdminModel.findOneAndUpdate(query, update)]: the first matching
    document is updated.  The handlers do not wait for it; a rejection
    reaches a [catch] whose error response comes after the response
    already sent. *)
Definition findOneAndUpdate (env : Env) (q : Query) (f : Admin -> Admin) (w : World) : World :=
  if store_accepts env
  then match findOne q (admins w) with
       | Some d => {| admins := alter f (_id d) (admins w); outbox := outbox w |}
       | None => w
       end
  else w.

(** ** The handlers *)

Section Handlers.

Context `{Validator, Bcrypt, Jwt}.
Variable cfg : Config.

(** *** Validation chains *)

Definition isLength (min : nat) (s : string) : bool :=
  (min <=? String.length s)%nat.

(** [.trim().escape()] *)
Definition sanitize (s : string) : string := escape (trim s).

(** A validator of a chain, with the message reported when it fails. *)
Definition rule (ok : bool) (p m : string) : bool * FieldError :=
  (ok, {| param := p; msg := m |}).

(** [validationResult(req)]: the errors of the validators that failed,
    in the order of the chains. *)
Definition validationResult (chain : list (bool * FieldError)) : list FieldError :=
  omap (fun r : bool * FieldError => if fst r then None else Some (snd r)) chain.

Definition isEmpty (errors : list FieldError) : bool :=
  match errors with [] => true | _ => false end.

(** The custom validators of [register]: the promise is rejected when a
    document with that value exists. *)
Definition unused (q : Query) (c : list Admin) : bool :=
  match findOne q c with Some _ => false | None => true end.

Definition register_chain (c : list Admin) (b : Body.t) : list (bool * FieldError) :=
  [ rule (isLength 1 (Body.first_name b))
      "first_name" "First name must be specified.";
    rule (isAlphanumeric (sanitize (Body.first_name b)))
      "first_name" "First name has non-alphanumeric characters.";
    rule (isLength 1 (Body.last_name b))
      "last_name" "Last name must be specified.";
    rule (isAlphanumeric (sanitize (Body.last_name b)))
      "last_name" "Last name has non-alphanumeric characters.";
    rule (isLength 1 (Body.email_id b))
      "email_id" "Email must be specified.";
    rule (isEmail (sanitize (Body.email_id b)))
      "email_id" "Email must be a valid email address.";
    rule (unused (by_email_id (sanitize (Body.email_id b))) c)
      "email_id" "E-mail already in use";
    rule (isLength 1 (Body.phone_number b))
      "phone_number" "Phone must be specified.";
    rule (unused (by_phone_number (sanitize (Body.phone_number b))) c)
      "phone_number" "Phone number already in use";
    rule (isLength 6 (Body.password b))
      "password" "Password must be 6 characters or greater." ].

Definition email_chain (b : Body.t) : list (bool * FieldError) :=
  [ rule (isLength 1 (Body.email_id b))
      "email_id" "Email must be specified.";
    rule (isEmail (sanitize (Body.email_id b)))
      "email_id" "Email must be a valid email address." ].

Definition login_chain (b : Body.t) : list (bool * FieldError) :=
  email_chain b
  ++ [ rule (isLength 1 (Body.password b))
         "password" "Password must be specified." ].

Definition verifyConfirm_chain (b : Body.t) : list (bool * FieldError) :=
  email_chain b
  ++ [ rule (isLength 1 (Body.otp b)) "otp" "OTP must be specified." ].

Definition resendConfirmOtp_chain (b : Body.t) : list (bool * FieldError) :=
  email_chain b.

Definition register_errors (c : list Admin) (b : Body.t) : list FieldError :=
  validationResult (register_chain c b).
Definition login_errors (b : Body.t) : list FieldError :=
  validationResult (login_chain b).
Definition verifyConfirm_errors (b : Body.t) : list FieldError :=
  validationResult (verifyConfirm_chain b).
Definition resendConfirmOtp_errors (b : Body.t) : list FieldError :=
  validationResult (resendConfirmOtp_chain b).

(** *** The two mails *)

Definition confirm_mail (to otp : string) : Mail :=
  {| mail_from := confirmEmails_from cfg;
     mail_to := to;
     mail_subject := "Confirm Account";
     mail_html := "<p>Please Confirm your Account.</p><p>OTP: " +:+ otp +:+ "</p>" |}.

Definition login_mail (to otp : string) : Mail :=
  {| mail_from := confirmEmails_from cfg;
     mail_to := to;
     mail_subject := "Confirm Account";
     mail_html := "<p>Please Login your Account.</p><p>OTP: " +:+ otp +:+ "</p>" |}.

(** *** register *)

Definition register (env : Env) (w : World) (b : Body.t)
  : option Response * World :=
  let errors := register_errors (admins w) b in
  if negb (isEmpty errors) then
    (Some (validationErrorWithData "Validation Error." (errors_array errors)), w)
  else
    let hash := bcrypt_hash (sanitize (Body.password b)) 10 (salt env) in
    let otp := randomNumber (draw env) 6 in
    let user :=
      {| first_name := sanitize (Body.first_name b);
         last_name := sanitize (Body.last_name b);
         email_id := sanitize (Body.email_id b);
         password := hash;
         isConfirmed := default_isConfirmed;
         is_active := default_is_active;
         confirmOTP := Some otp;
         otpTries := default_otpTries;
         status := default_status;
         phone_number := sanitize (Body.phone_number b);
         image := None;
         designation := Body.designation b;
         address := Body.address b;
         city := Body.city b;
         state := Body.state b;
         post_code := Body.post_code b |} in
    match mailer_send env (confirm_mail (sanitize (Body.email_id b)) otp) w with
    | Some w1 =>
        match save_new env user w1 with
        | inl err => (Some (ErrorResponse err), w1)
        | inr (saved, w2) =>
            let userData :=
              {| reg_id := _id saved;
                 reg_first_name := first_name (doc saved);
                 reg_last_name := last_name (doc saved);
                 reg_email_id := email_id (doc saved);
                 reg_phone_number := phone_number (doc saved);
                 reg_designation := designation (doc saved);
                 reg_address := address (doc saved);
                 reg_city := city (doc saved);
                 reg_state := state (doc saved);
                 reg_post_code := post_code (doc saved) |} in
            (Some (successResponseWithData "Registration Success." (registered userData)), w2)
        end
    | None => (Some (ErrorResponse DeliveryError), w)
    end.

(** *** login *)

Definition identity (user : Document) : JwtPayload :=
  {| jwt_id := _id user;
     jwt_first_name := first_name (doc user);
     jwt_last_name := last_name (doc user);
     jwt_email_id := email_id (doc user) |}.

Definition login (env : Env) (w : World) (b : Body.t)
  : option Response * World :=
  let errors := login_errors b in
  if negb (isEmpty errors) then
    (Some (validationErrorWithData "Validation Error." (errors_array errors)), w)
  else
    match findOne (by_email_id (sanitize (Body.email_id b))) (admins w) with
    | Some user =>
        if bcrypt_compare (sanitize (Body.password b)) (password (doc user)) then
          if isConfirmed (doc user) then
            if status (doc user) then
              let otp := randomNumber (draw env) 6 in
              match mailer_send env (login_mail (sanitize (Body.email_id b)) otp) w with
              | Some w1 =>
                  let w2 :=
                    findOneAndUpdate env (by_email_id (sanitize (Body.email_id b)))
                      (set_confirmation true (Some otp)) w1 in
                  let userData := identity user in
                  let token :=
                    jwt_sign userData (JWT_SECRET cfg) (JWT_TIMEOUT_DURATION cfg) in
                  (Some (successResponseWithData "Login Success." (session userData token)), w2)
              | None => (None, w)   (* the rejection is not caught *)
              end
            else
              (Some (unauthorizedResponse "Account is not active. Please contact admin."), w)
          else
            (Some (unauthorizedResponse
                     "Account is not confirmed. Please confirm your account."), w)
        else
          (Some (unauthorizedResponse "Email or Password wrong."), w)
    | None =>
        (Some (unauthorizedResponse "Email or Password wrong."), w)
    end.

(** *** verifyConfirm *)

(** [user.confirmOTP == req.body.otp]: the body's otp is a string after
    sanitization; an absent stored code equals no string. *)
Definition loose_eq (stored : option string) (submitted : string) : bool :=
  match stored with
  | Some s => bool_decide (s = submitted)
  | None => false
  end.

Definition verifyConfirm (env : Env) (w : World) (b : Body.t)
  : option Response * World :=
  let errors := verifyConfirm_errors b in
  if negb (isEmpty errors) then
    (Some (validationErrorWithData "Validation Error." (errors_array errors)), w)
  else
    let query := by_email_id (sanitize (Body.email_id b)) in
    match findOne query (admins w) with
    | Some user =>
        if true then
          if loose_eq (confirmOTP (doc user)) (sanitize (Body.otp b)) then
            let w1 := findOneAndUpdate env query (set_confirmation true None) w in
            let userData := identity user in
            let token :=
              jwt_sign userData (JWT_SECRET cfg) (JWT_TIMEOUT_DURATION cfg) in
            (Some (successResponseWithData "Login Success." (session userData token)), w1)
          else
            (Some (unauthorizedResponse "Otp does not match"), w)
        else
          (Some (unauthorizedResponse "Account already confirmed."), w)
    | None =>
        (Some (unauthorizedResponse "Specified email not found."), w)
    end.

(** *** resendConfirmOtp *)

Definition resendConfirmOtp (env : Env) (w : World) (b : Body.t)
  : option Response * World :=
  let errors := resendConfirmOtp_errors b in
  if negb (isEmpty errors) then
    (Some (validationErrorWithData "Validation Error." (errors_array errors)), w)
  else
    let query := by_email_id (sanitize (Body.email_id b)) in
    match findOne query (admins w) with
    | Some user =>
        if true then
          let otp := randomNumber (draw env) 6 in
          match mailer_send env (login_mail (sanitize (Body.email_id b)) otp) w with
          | Some w1 =>
              match save_modified env (_id user) (set_confirmation false (Some otp)) w1 with
              | inl err => (Some (ErrorResponse err), w1)
              | inr w2 => (Some (successResponse "Confirm otp sent."), w2)
              end
          | None => (None, w)   (* the rejection is not caught *)
          end
        else
          (Some (unauthorizedResponse "Account already confirmed."), w)
    | None =>
        (Some (unauthorizedResponse "Specified email not found."), w)
    end.

End Handlers.

(** ** The properties as the specification states them

    Each is stated at one call, so that it can be tested on a concrete
    one. *)

Section Statements.

Context `{Validator, Bcrypt, Jwt}.
Variable cfg : Config.

Implicit Types (env : Env) (w : World) (b : Body.t) (user : Document).

(** The query [login], [verifyConfirm] and [resendConfirmOtp] look the
    account up with. *)
Definition account_query b : Query := by_email_id (sanitize (Body.email_id b)).

(** The session a successful [login] or [verifyConfirm] answers with: the
    identity of the account and the token signed over it, with the
    configured expiry. *)
Definition session_of user : Data :=
  session (identity user)
    (jwt_sign (identity user) (JWT_SECRET cfg) (JWT_TIMEOUT_DURATION cfg)).

(** C1 as the claim states it, at one call. *)
Definition register_unconfirmed env w b : Prop :=
  register_errors (admins w) b = [] ->
  delivers env (confirm_mail cfg (sanitize (Body.email_id b))
                  (randomNumber (draw env) 6)) = true ->
  forall a,
    admins (snd (register cfg env w b)) = (admins w ++ [a])%list ->
    isConfirmed a = false
    /\ exists otp, confirmOTP a = Some otp /\ numeric 6 otp.

(** C2 as the claim states it, at one call: a confirmed account whose
    [is_active] flag is false is refused with the inactive message. *)
Definition inactive_refused env w b : Prop :=
  forall user,
    login_errors b = [] ->
    findOne (account_query b) (admins w) = Some user ->
    bcrypt_compare (sanitize (Body.password b)) (password (doc user)) = true ->
    isConfirmed (doc user) = true ->
    is_active (doc user) = false ->
    login cfg env w b =
      (Some (unauthorizedResponse "Account is not active. Please contact admin."), w).

(** C3 as the claim states it, at one call. *)
Definition resend_regenerates env w b : Prop :=
  forall user,
    resendConfirmOtp_errors b = [] ->
    findOne (account_query b) (admins w) = Some user ->
    exists otp,
      numeric 6 otp
      /\ admins (snd (resendConfirmOtp cfg env w b)) !! _id user
         = Some (set_confirmation false (Some otp) (doc user))
      /\ fst (resendConfirmOtp cfg env w b) = Some (successResponse "Confirm otp sent.").

(** C5 as the claim states it, at one call. *)
Definition verifyConfirm_confirms env w b : Prop :=
  forall user,
    verifyConfirm_errors b = [] ->
    findOne (account_query b) (admins w) = Some user ->
    confirmOTP (doc user) = Some (sanitize (Body.otp b)) ->
    admins (snd (verifyConfirm cfg env w b)) !! _id user
      = Some (set_confirmation true None (doc user))
    /\ fst (verifyConfirm cfg env w b)
       = Some (successResponseWithData "Login Success." (session_of user)).

(** C6 as the claim states it, at one call: an otp that differs, as
    submitted, from the stored code is refused. *)
Definition mismatch_refused env w b : Prop :=
  forall user,
    verifyConfirm_errors b = [] ->
    findOne (account_query b) (admins w) = Some user ->
    confirmOTP (doc user) <> Some (Body.otp b) ->
    verifyConfirm cfg env w b = (Some (unauthorizedResponse "Otp does not match"), w).

(** C9 as the claim states it, at one call. *)
Definition login_reconfirms env w b : Prop :=
  forall user,
    login_errors b = [] ->
    findOne (account_query b) (admins w) = Some user ->
    bcrypt_compare (sanitize (Body.password b)) (password (doc user)) = true ->
    isConfirmed (doc user) = true ->
    status (doc user) = true ->
    exists otp,
      numeric 6 otp
      /\ outbox (snd (login cfg env w b))
         = (outbox w ++ [login_mail cfg (sanitize (Body.email_id b)) otp])%list
      /\ admins (snd (login cfg env w b)) !! _id user
         = Some (set_confirmation true (Some otp) (doc user))
      /\ fst (login cfg env w b)
         = Some (successResponseWithData "Login Success." (session_of user)).

End Statements.

(** ** The delete handlers of the state and carousel controllers

    [StateDelete] and [CauroselDelete] are the functions that follow [auth]
    in their route chains.  The schemas of StateModel and CauroselModel
    play no part in them: the handlers are generic in the documents. *)

(** mongoose's [Types.ObjectId]: whether a string is a valid id, and the
    id (as its hex string) that a valid string is cast to. *)
Class Mongoose := {
  isValid : string -> bool;
  toObjectId : string -> string
}.

Module Delete.

Inductive Problem :=
| failure (err : Failure)
| reason (text : string).

(** One constructor per helper of apiResponse that the two handlers
    call. *)
Inductive Response :=
| successResponse (message : string)
| ErrorResponse (err : Problem)
| validationErrorWithData (message : string) (data : string)
| notFoundResponse (message : string).

Section Handlers.

Context `{Mongoose} {D : Type}.

(** Model.findById(id) *)
Definition findById (id : string) (c : gmap string D) : option D :=
  c !! toObjectId id.

Definition StateDelete (env : Env) (c : gmap string D) (id : string)
  : option Response * gmap string D :=
  if negb (isValid id) then
    (Some (validationErrorWithData "Invalid Error." "Invalid ID"), c)
  else
    match findById id c with
    | None => (Some (notFoundResponse "State not exists with this id"), c)
    | Some _ =>
        (* StateModel.findByIdAndRemove(req.params.id, function (err) ..) *)
        if store_accepts env
        then (Some (successResponse "State delete Success."), delete (toObjectId id) c)
        else (Some (ErrorResponse (failure StoreError)), c)
    end.

Definition CauroselDelete (env : Env) (c : gmap string D) (id : string)
  : option Response * gmap string D :=
  if negb (isValid id) then
    (Some (validationErrorWithData "Invalid Id" "Invalid Data Id"), c)
  else
    (* CauroselModel.findByIdAndDelete(req.params.id, {}).then((data) => ..) *)
    if store_accepts env then
      match findById id c with
      | None => (Some (ErrorResponse (reason "Error Delete")), c)
      | Some _ => (Some (successResponse "Success"), delete (toObjectId id) c)
      end
    else (None, c)   (* the rejection is not caught *).

End Handlers.

End Delete.

(** ** The documents with their dates

    AdminSchema is declared with [timestamps: true]: every stored document
    carries [createdAt] and [updatedAt], and a write that changes a
    document sets its [updatedAt] to the time of the write.  The three
    handlers that write to stored accounts are embedded here once more,
    over documents that carry their dates; [now] is the clock's reading at
    the call. *)

#[global] Instance Admin_eq_dec : EqDecision Admin.
Proof. solve_decision. Defined.

Module Dated.

Record Dates := { createdAt : nat; updatedAt : nat }.

(** A document as the collection holds it. *)
Record Stored := { paths : Admin; dates : Dates }.

Record Store := {
  accounts : list Stored;
  mails : list Mail
}.

(** The world without the dates. *)
Definition plain (s : Store) : World :=
  {| admins := paths <$> accounts s; outbox := mails s |}.

(** AdminModel.findOne(query): the queries read declared paths only. *)
Definition findOne (q : Query) (c : list Stored) : option Document :=
  AdminModel.findOne q (paths <$> c).

(** A write of the update [f] at time [now]. *)
Definition touch (now : nat) (f : Admin -> Admin) (x : Stored) : Stored :=
  {| paths := f (paths x);
     dates := {| createdAt := createdAt (dates x); updatedAt := now |} |}.

Definition mailer_send (env : Env) (m : Mail) (s : Store) : option Store :=
  if delivers env m
  then Some {| accounts := accounts s; mails := mails s ++ [m] |}
  else None.

(** [AdminModel.findOneAndUpdate(query, update)]: the update is sent with
    the new [updatedAt]. *)
Definition findOneAndUpdate (now : nat) (env : Env) (q : Query) (f : Admin -> Admin)
    (s : Store) : Store :=
  if store_accepts env
  then match findOne q (accounts s) with
       | Some d => {| accounts := alter (touch now f) (_id d) (accounts s);
                      mails := mails s |}
       | None => s
       end
  else s.

(** [user.save()] of a document read earlier: when the assignments changed
    a path, the modified paths are written with the new [updatedAt]; when
    they changed none, nothing is written. *)
Definition save_modified (now : nat) (env : Env) (id : nat) (f : Admin -> Admin)
    (s : Store) : Failure + Store :=
  if store_accepts env
  then inr {| accounts :=
                alter (fun x => if decide (f (paths x) = paths x) then x
                                else touch now f x) id (accounts s);
              mails := mails s |}
  else inl StoreError.

Section Handlers.

Context `{Validator, Bcrypt, Jwt}.
Variable cfg : Config.

Definition login (now : nat) (env : Env) (s : Store) (b : Body.t)
  : option Response * Store :=
  let errors := login_errors b in
  if negb (isEmpty errors) then
    (Some (validationErrorWithData "Validation Error." (errors_array errors)), s)
  else
    match findOne (by_email_id (sanitize (Body.email_id b))) (accounts s) with
    | Some user =>
        if bcrypt_compare (sanitize (Body.password b)) (password (doc user)) then
          if isConfirmed (doc user) then
            if status (doc user) then
              let otp := randomNumber (draw env) 6 in
              match mailer_send env (login_mail cfg (sanitize (Body.email_id b)) otp) s with
              | Some s1 =>
                  let s2 :=
                    findOneAndUpdate now env (by_email_id (sanitize (Body.email_id b)))
                      (set_confirmation true (Some otp)) s1 in
                  let userData := identity user in
                  let token :=
                    jwt_sign userData (JWT_SECRET cfg) (JWT_TIMEOUT_DURATION cfg) in
                  (Some (successResponseWithData "Login Success." (session userData token)), s2)
              | None => (None, s)   (* the rejection is not caught *)
              end
            else
              (Some (unauthorizedResponse "Account is not active. Please contact admin."), s)
          else
            (Some (unauthorizedResponse
                     "Account is not confirmed. Please confirm your account."), s)
        else
          (Some (unauthorizedResponse "Email or Password wrong."), s)
    | None =>
        (Some (unauthorizedResponse "Email or Password wrong."), s)
    end.

Definition verifyConfirm (now : nat) (env : Env) (s : Store) (b : Body.t)
  : option Response * Store :=
  let errors := verifyConfirm_errors b in
  if negb (isEmpty errors) then
    (Some (validationErrorWithData "Validation Error." (errors_array errors)), s)
  else
    let query := by_email_id (sanitize (Body.email_id b)) in
    match findOne query (accounts s) with
    | Some user =>
        if true then
          if loose_eq (confirmOTP (doc user)) (sanitize (Body.otp b)) then
            let s1 := findOneAndUpdate now env query (set_confirmation true None) s in
            let userData := identity user in
            let token :=
              jwt_sign userData (JWT_SECRET cfg) (JWT_TIMEOUT_DURATION cfg) in
            (Some (successResponseWithData "Login Success." (session userData token)), s1)
          else
            (Some (unauthorizedResponse "Otp does not match"), s)
        else
          (Some (unauthorizedResponse "Account already confirmed."), s)
    | None =>
        (Some (unauthorizedResponse "Specified email not found."), s)
    end.

Definition resendConfirmOtp (now : nat) (env : Env) (s : Store) (b : Body.t)
  : option Response * Store :=
  let errors := resendConfirmOtp_errors b in
  if negb (isEmpty errors) then
    (Some (validationErrorWithData "Validation Error." (errors_array errors)), s)
  else
    let query := by_email_id (sanitize (Body.email_id b)) in
    match findOne query (accounts s) with
    | Some user =>
        if true then
          let otp := randomNumber (draw env) 6 in
          match mailer_send env (login_mail cfg (sanitize (Body.email_id b)) otp) s with
          | Some s1 =>
              match save_modified now env (_id user)
                      (set_confirmation false (Some otp)) s1 with
              | inl err => (Some (ErrorResponse err), s1)
              | inr s2 => (Some (successResponse "Confirm otp sent."), s2)
              end
          | None => (None, s)   (* the rejection is not caught *)
          end
        else
          (Some (unauthorizedResponse "Account already confirmed."), s)
    | None =>
        (Some (unauthorizedResponse "Specified email not found."), s)
    end.

(** Two versions of a stored document that differ at most in
    [isConfirmed], [confirmOTP] and [updatedAt]. *)
Definition frame (x x' : Stored) : Prop :=
  AdminModel.frame (paths x) (paths x')
  /\ createdAt (dates x') = createdAt (dates x).

(** C10 as the claim states it, at one call: on an existing account the
    three handlers leave every document as it was, [isConfirmed] and
    [confirmOTP] apart. *)
Definition only_confirmation_mutated (now : nat) (env : Env) (s : Store) (b : Body.t)
  : Prop :=
  is_Some (findOne (by_email_id (sanitize (Body.email_id b))) (accounts s)) ->
  let unchanged := fun x x' =>
    AdminModel.frame (paths x) (paths x') /\ dates x' = dates x in
  Forall2 unchanged (accounts s) (accounts (snd (login now env s b)))
  /\ Forall2 unchanged (accounts s) (accounts (snd (verifyConfirm now env s b)))
  /\ Forall2 unchanged (accounts s) (accounts (snd (resendConfirmOtp now env s b))).

End Handlers.

End Dated.

(** ** Notions used to state further properties *)

(** An answer that turns the request down: a validation error or an
    Unauthorized. *)
Definition rejection (r : option Response) : bool :=
  match r with
  | Some (validationErrorWithData _ _) | Some (unauthorizedResponse _) => true
  | _ => false
  end.

(** No two documents of the collection agree on the path [f]. *)
Definition distinct (f : Admin -> string) (c : list Admin) : Prop :=
  NoDup (f <$> c).

Section Flows.

Context `{Validator, Bcrypt, Jwt}.
Variable cfg : Config.

(** The document [register] builds from a body: the sanitized names,
    email and phone, the hash of the sanitized password, the code drawn,
    the profile paths as sent, and the schema defaults for the rest. *)
Definition registration (env : Env) (b : Body.t) : Admin :=
  {| first_name := sanitize (Body.first_name b);
     last_name := sanitize (Body.last_name b);
     email_id := sanitize (Body.email_id b);
     password := bcrypt_hash (sanitize (Body.password b)) 10 (salt env);
     isConfirmed := default_isConfirmed;
     is_active := default_is_active;
     confirmOTP := Some (randomNumber (draw env) 6);
     otpTries := default_otpTries;
     status := default_status;
     phone_number := sanitize (Body.phone_number b);
     image := None;
     designation := Body.designation b;
     address := Body.address b;
     city := Body.city b;
     state := Body.state b;
     post_code := Body.post_code b |}.

(** The world after a series of verifyConfirm requests, one after the
    other. *)
Definition attempts (env : Env) (w : World) (guesses : list Body.t) : World :=
  foldl (fun w g => snd (verifyConfirm cfg env w g)) w guesses.

End Flows.

(** ** A small instance of the libraries

    Simple stand-ins for the sanitizers, the validators, bcrypt and
    jsonwebtoken, with which the handlers run on concrete requests. *)

Module Sample.

Definition code (c : ascii) : nat := nat_of_ascii c.

Definition isSpace (c : ascii) : bool :=
  bool_decide (code c = 32) || bool_decide (code c = 9)
  || bool_decide (code c = 10) || bool_decide (code c = 13).

Definition isAlnum (c : ascii) : bool :=
  ((48 <=? code c) && (code c <=? 57)
   || (65 <=? code c) && (code c <=? 90)
   || (97 <=? code c) && (code c <=? 122))%nat.

Fixpoint ltrim (s : string) : string :=
  match s with
  | String c r => if isSpace c then ltrim r else s
  | EmptyString => EmptyString
  end.

Fixpoint rtrim (s : string) : string :=
  match s with
  | String c r =>
      match rtrim r with
      | EmptyString => if isSpace c then EmptyString else String c EmptyString
      | r' => String c r'
      end
  | EmptyString => EmptyString
  end.

Definition entity (c : ascii) : string :=
  match code c with
  | 38 => "&amp;"
  | 34 => "&quot;"
  | 39 => "&#x27;"
  | 60 => "&lt;"
  | 62 => "&gt;"
  | 47 => "&#x2F;"
  | 92 => "&#x5C;"
  | 96 => "&#96;"
  | _ => String c EmptyString
  end.

Fixpoint escape_entities (s : string) : string :=
  match s with
  | String c r => entity c +:+ escape_entities r
  | EmptyString => EmptyString
  end.

Fixpoint all_chars (p : ascii -> bool) (s : string) : bool :=
  match s with
  | String c r => p c && all_chars p r
  | EmptyString => true
  end.

Fixpoint has_char (n : nat) (s : string) : bool :=
  match s with
  | String c r => bool_decide (code c = n) || has_char n r
  | EmptyString => false
  end.

(** local@domain, the domain with a dot. *)
Fixpoint email_shape (local_seen : bool) (s : string) : bool :=
  match s with
  | String c r =>
      if bool_decide (code c = 64)
      then local_seen && has_char 46 r
           && all_chars (fun d => isAlnum d || bool_decide (code d = 46)
                                  || bool_decide (code d = 45)) r
      else (isAlnum c || bool_decide (code c = 46) || bool_decide (code c = 45)
            || bool_decide (code c = 95) || bool_decide (code c = 43))
           && email_shape true r
  | EmptyString => false
  end.

#[global] Instance validator : Validator := {|
  trim := fun s => rtrim (ltrim s);
  escape := escape_entities;
  isEmail := email_shape false;
  isAlphanumeric := fun s => negb (bool_decide (s = "")) && all_chars isAlnum s
|}.

#[global] Instance bcrypt : Bcrypt := {|
  bcrypt_hash := fun data rounds salt =>
    String (ascii_of_nat (65 + salt mod 26)) ("$" +:+ data);
  bcrypt_compare := fun data encrypted =>
    match encrypted with
    | String _ r => bool_decide (r = "$" +:+ data)
    | EmptyString => false
    end
|}.

#[global] Instance jwt : Jwt := {|
  jwt_sign := fun payload secret expiresIn =>
    jwt_email_id payload +:+ "." +:+ expiresIn +:+ "." +:+ secret
|}.

Definition cfg : Config :=
  {| JWT_SECRET := "secret";
     JWT_TIMEOUT_DURATION := "2 hours";
     confirmEmails_from := "admin@shop.com" |}.

(** Everything works: mails are delivered, writes are applied. *)
Definition env : Env :=
  {| draw := fun i => 7 * i + 3;
     salt := 1;
     delivers := fun _ => true;
     store_accepts := true |}.

(** The transport is down. *)
Definition env_undelivered : Env :=
  {| draw := fun i => 7 * i + 3;
     salt := 1;
     delivers := fun _ => false;
     store_accepts := true |}.

(** The store refuses writes. *)
Definition env_refused : Env :=
  {| draw := fun i => 7 * i + 3;
     salt := 1;
     delivers := fun _ => true;
     store_accepts := false |}.

Definition empty : World := {| admins := []; outbox := [] |}.

Definition request (email password otp : string) : Body.t :=
  {| Body.first_name := ""; Body.last_name := ""; Body.email_id := email;
     Body.password := password; Body.phone_number := "";
     Body.designation := ""; Body.address := ""; Body.city := "";
     Body.state := ""; Body.post_code := ""; Body.otp := otp |}.

(** The registration of the spec's scenario. *)
Definition jane : Body.t :=
  {| Body.first_name := "Jane"; Body.last_name := "Doe";
     Body.email_id := "jane@x.com"; Body.password := "secret1";
     Body.phone_number := "555-0100"; Body.designation := "Manager";
     Body.address := "1 Main St"; Body.city := "Springfield";
     Body.state := "IL"; Body.post_code := "62701"; Body.otp := "" |}.

(** The world once jane has registered. *)
Definition with_jane : World := snd (register cfg env empty jane).

(** A later moment: other draws. *)
Definition later : Env :=
  {| draw := fun i => 3 * i + 5;
     salt := 2;
     delivers := fun _ => true;
     store_accepts := true |}.

(** The world once jane has asked for her code again. *)
Definition with_jane_again : World :=
  snd (resendConfirmOtp cfg later with_jane (request "jane@x.com" "" "")).

(** Jane's account with the three flags set by hand. *)
Definition account (confirmed active stat : bool) : Admin :=
  {| first_name := "Jane"; last_name := "Doe"; email_id := "jane@x.com";
     password := "B$secret1"; isConfirmed := confirmed; is_active := active;
     confirmOTP := Some "407418"; otpTries := 0; status := stat;
     phone_number := "555-0100"; image := None; designation := "Manager";
     address := "1 Main St"; city := "Springfield"; state := "IL";
     post_code := "62701" |}.

Definition only (a : Admin) : World := {| admins := [a]; outbox := [] |}.

Definition jane_login : Body.t := request "jane@x.com" "secret1" "".

(** Jane's account as a document: the first of the collection. *)
Definition jane_doc (a : Admin) : Document := {| _id := 0; doc := a |}.

(** Ids: 24 hexadecimal digits, cast to their lower-case form. *)
Definition isHex (c : ascii) : bool :=
  ((48 <=? code c) && (code c <=? 57)
   || (65 <=? code c) && (code c <=? 70)
   || (97 <=? code c) && (code c <=? 102))%nat.

Definition lower (c : ascii) : ascii :=
  if ((65 <=? code c) && (code c <=? 90))%nat then ascii_of_nat (code c + 32) else c.

Fixpoint lower_case (s : string) : string :=
  match s with
  | String c r => String (lower c) (lower_case r)
  | EmptyString => EmptyString
  end.

#[global] Instance mongoose : Mongoose := {|
  isValid := fun s => bool_decide (String.length s = 24) && all_chars isHex s;
  toObjectId := lower_case
|}.

(** Two states, by name. *)
Definition states : gmap string string :=
  <["5f1a2b3c4d5e6f7a8b9c0d1e" := "Illinois"]>
    (<["5f1a2b3c4d5e6f7a8b9c0d1f" := "Indiana"]> ∅).

(** A world whose documents were all stored, and last written, at [t]. *)
Definition stored_at (t : nat) (w : World) : Dated.Store :=
  {| Dated.accounts :=
       (fun a => {| Dated.paths := a;
                    Dated.dates := {| Dated.createdAt := t; Dated.updatedAt := t |} |})
         <$> admins w;
     Dated.mails := outbox w |}.

(** A second registration, and one that reuses jane's email. *)
Definition joe : Body.t :=
  {| Body.first_name := "Joe"; Body.last_name := "Roe";
     Body.email_id := "joe@x.com"; Body.password := "hunter22";
     Body.phone_number := "555-0199"; Body.designation := "Clerk";
     Body.address := "2 High St"; Body.city := "Shelbyville";
     Body.state := "IL"; Body.post_code := "62565"; Body.otp := "" |}.

Definition jane_twin : Body.t :=
  {| Body.first_name := "Janet"; Body.last_name := "Doe";
     Body.email_id := " jane@x.com"; Body.password := "another1";
     Body.phone_number := "555-0111"; Body.designation := "Clerk";
     Body.address := "3 Low St"; Body.city := "Springfield";
     Body.state := "IL"; Body.post_code := "62701"; Body.otp := "" |}.

End Sample.

(** ** Facts about the one-time code *)

Section OneTimeCode.

Lemma length_string_of_list (l : list ascii) :
  String.length (String.string_of_list_ascii l) = length l.
Proof. induction l as [|c l IH]; simpl; [reflexivity | now rewrite IH]. Qed.

Lemma otp_digit_lt (draw : nat -> nat) (i : nat) : otp_digit draw i < 10.
Proof.
  destruct i as [|i]; unfold otp_digit.
  - pose proof (Nat.mod_upper_bound (draw 0) 9). lia.
  - apply Nat.mod_upper_bound. lia.
Qed.

Lemma isDigit_digit_char (d : nat) : d < 10 -> isDigit (digit_char d) = true.
Proof.
  intros Hd. unfold isDigit, digit_char.
  rewrite nat_ascii_embedding by lia.
  apply andb_true_intro; split; apply Nat.leb_le; lia.
Qed.

Lemma randomNumber_numeric (draw : nat -> nat) (n : nat) :
  numeric n (randomNumber draw n).
Proof.
  unfold numeric, randomNumber. split.
  - now rewrite length_string_of_list, length_fmap, length_seq.
  - rewrite String.list_ascii_of_string_of_list_ascii.
    apply Forall_fmap, Forall_seq. intros j _.
    apply isDigit_digit_char, otp_digit_lt.
Qed.

End OneTimeCode.

(** ** Facts about the collection *)

Section Collection.

Implicit Types (q : Query) (c : list Admin) (d : Document) (f : Admin -> Admin).

Lemma findOne_Some q c d :
  findOne q c = Some d ->
  c !! _id d = Some (doc d) /\ matches q (doc d) = true.
Proof.
  unfold findOne. intros Hf.
  destruct (list_find (matches q) c) as [[i a]|] eqn:E; [|discriminate].
  injection Hf as <-. simpl.
  apply list_find_Some in E as (Hl & Hm & _).
  split; [assumption | now apply Is_true_eq_true].
Qed.

Lemma matches_set_confirmation q b otp a :
  matches q (set_confirmation b otp a) = matches q a.
Proof. now destruct q. Qed.

(** An update that keeps the queried path leaves the query's answer in
    place. *)
Lemma findOne_alter q c d f :
  (forall a, matches q (f a) = matches q a) ->
  findOne q c = Some d ->
  findOne q (alter f (_id d) c) = Some {| _id := _id d; doc := f (doc d) |}.
Proof.
  unfold findOne. intros Hf Hd.
  destruct (list_find (matches q) c) as [[i a]|] eqn:E; [|discriminate].
  injection Hd as <-. simpl.
  apply list_find_Some in E as (Hl & Hm & Hfirst).
  assert (list_find (matches q) (alter f i c) = Some (i, f a)) as ->; [|reflexivity].
  apply list_find_Some. split; [|split].
  - now rewrite list_lookup_alter_eq, Hl.
  - now rewrite Hf.
  - intros j y Hj Hlt. rewrite list_lookup_alter_ne in Hj by lia. eauto.
Qed.

Lemma frame_refl a : frame a a.
Proof. now repeat split. Qed.

Lemma frame_id c : Forall2 frame c c.
Proof. apply Forall_Forall2_diag, Forall_forall. intros; apply frame_refl. Qed.

Lemma frame_alter b otp i c :
  Forall2 frame c (alter (set_confirmation b otp) i c).
Proof.
  apply Forall2_alter_r; [apply frame_id|].
  intros x y _ _ Hxy. unfold frame in *. simpl. exact Hxy.
Qed.

End Collection.

(** ** Properties of the handlers *)

Section Claims.

Context `{Validator, Bcrypt, Jwt}.
Variable cfg : Config.

Implicit Types (env : Env) (w : World) (b : Body.t) (user : Document).

Ltac passed Hv :=
  rewrite Hv; cbn [isEmpty negb].

(** *** login *)

(** C4: when the password matches and the account is not confirmed, login
    answers Unauthorized with the confirmation message, whatever the
    values of [is_active] and [status]; the world is left as it was. *)
Theorem login_unconfirmed_rejected env w b user :
  login_errors b = [] ->
  findOne (account_query b) (admins w) = Some user ->
  bcrypt_compare (sanitize (Body.password b)) (password (doc user)) = true ->
  isConfirmed (doc user) = false ->
  login cfg env w b =
    (Some (unauthorizedResponse
             "Account is not confirmed. Please confirm your account."), w).
Proof.
  intros Hv Hu Hp Hc. unfold login, account_query in *.
  passed Hv. now rewrite Hu, Hp, Hc.
Qed.

(** C2, amended: the flag that login consults is [status].  When the
    password matches, the account is confirmed and its [status] is false,
    login answers Unauthorized with the inactive message; no token is
    issued and the world is left as it was. *)
Theorem login_status_off_rejected env w b user :
  login_errors b = [] ->
  findOne (account_query b) (admins w) = Some user ->
  bcrypt_compare (sanitize (Body.password b)) (password (doc user)) = true ->
  isConfirmed (doc user) = true ->
  status (doc user) = false ->
  login cfg env w b =
    (Some (unauthorizedResponse "Account is not active. Please contact admin."), w).
Proof.
  intros Hv Hu Hp Hc Hs. unfold login, account_query in *.
  passed Hv. now rewrite Hu, Hp, Hc, Hs.
Qed.


(** C9, amended: a login that passes the password, confirmation and
    [status] checks, whose mail is delivered and whose update the store
    applies, generates a 6-digit code, mails it, stores it with
    [isConfirmed] set to true again, and answers with the identity of the
    account and a token signed over it with the configured expiry. *)
Theorem login_success env w b user :
  login_errors b = [] ->
  findOne (account_query b) (admins w) = Some user ->
  bcrypt_compare (sanitize (Body.password b)) (password (doc user)) = true ->
  isConfirmed (doc user) = true ->
  status (doc user) = true ->
  delivers env (login_mail cfg (sanitize (Body.email_id b))
                  (randomNumber (draw env) 6)) = true ->
  store_accepts env = true ->
  exists otp,
    numeric 6 otp
    /\ outbox (snd (login cfg env w b))
       = (outbox w ++ [login_mail cfg (sanitize (Body.email_id b)) otp])%list
    /\ admins (snd (login cfg env w b))
       = alter (set_confirmation true (Some otp)) (_id user) (admins w)
    /\ admins (snd (login cfg env w b)) !! _id user
       = Some (set_confirmation true (Some otp) (doc user))
    /\ fst (login cfg env w b)
       = Some (successResponseWithData "Login Success." (session_of cfg user)).
Proof.
  intros Hv Hu Hp Hc Hs Hm Hw. exists (randomNumber (draw env) 6).
  split; [apply randomNumber_numeric|].
  unfold login, account_query, mailer_send, findOneAndUpdate in *.
  passed Hv. rewrite Hu, Hp, Hc, Hs, Hm, Hw. cbn [admins outbox]. rewrite Hu.
  cbn [fst snd admins outbox]. repeat split.
  apply findOne_Some in Hu as [Hl _].
  now rewrite list_lookup_alter_eq, Hl.
Qed.

(** *** verifyConfirm *)

Lemma loose_eq_true (stored : option string) (submitted : string) :
  loose_eq stored submitted = true <-> stored = Some submitted.
Proof.
  destruct stored as [s|]; simpl; [|easy].
  rewrite bool_decide_eq_true. split; congruence.
Qed.

(** C5, amended: when the submitted otp equals the stored code and the
    store applies the update, the account's [isConfirmed] becomes true and
    its [confirmOTP] null, every other path and every other account
    staying as it was, and the answer carries the identity of the account
    ([_id], [first_name], [last_name], [email_id]) and a token signed over
    exactly that identity. *)
Theorem verifyConfirm_success env w b user :
  verifyConfirm_errors b = [] ->
  findOne (account_query b) (admins w) = Some user ->
  confirmOTP (doc user) = Some (sanitize (Body.otp b)) ->
  store_accepts env = true ->
  admins (snd (verifyConfirm cfg env w b))
    = alter (set_confirmation true None) (_id user) (admins w)
  /\ admins (snd (verifyConfirm cfg env w b)) !! _id user
     = Some (set_confirmation true None (doc user))
  /\ findOne (account_query b) (admins (snd (verifyConfirm cfg env w b)))
     = Some {| _id := _id user; doc := set_confirmation true None (doc user) |}
  /\ fst (verifyConfirm cfg env w b)
     = Some (successResponseWithData "Login Success."
               (session (identity user)
                  (jwt_sign
                     {| jwt_id := _id user;
                        jwt_first_name := first_name (doc user);
                        jwt_last_name := last_name (doc user);
                        jwt_email_id := email_id (doc user) |}
                     (JWT_SECRET cfg) (JWT_TIMEOUT_DURATION cfg)))).
Proof.
  intros Hv Hu Ho Hw. apply loose_eq_true in Ho.
  pose proof (findOne_Some _ _ _ Hu) as [Hl _].
  pose proof (findOne_alter _ _ _ (set_confirmation true None)
                (fun a => matches_set_confirmation _ true None a) Hu) as Hu'.
  unfold verifyConfirm, account_query, findOneAndUpdate in *.
  passed Hv. rewrite Hu, Ho, Hw. cbn [fst snd admins].
  repeat split; [|exact Hu'].
  now rewrite list_lookup_alter_eq, Hl.
Qed.

(** C6, amended: when the submitted otp, once trimmed and escaped by the
    validation chain, differs from the stored code, the answer is
    Unauthorized with the mismatch message and the world, so the account's
    [isConfirmed] and [confirmOTP] too, is left as it was. *)
Theorem verifyConfirm_mismatch env w b user :
  verifyConfirm_errors b = [] ->
  findOne (account_query b) (admins w) = Some user ->
  confirmOTP (doc user) <> Some (sanitize (Body.otp b)) ->
  verifyConfirm cfg env w b = (Some (unauthorizedResponse "Otp does not match"), w).
Proof.
  intros Hv Hu Ho. unfold verifyConfirm, account_query in *.
  passed Hv. rewrite Hu.
  destruct (loose_eq _ _) eqn:E; [|reflexivity].
  now apply loose_eq_true in E.
Qed.

(** *** resendConfirmOtp *)

(** C3, amended: on an existing account, confirmed or not, when the mail
    is delivered and the store applies the save, resendConfirmOtp
    generates a 6-digit code, mails it, stores it with [isConfirmed] set
    to false, and answers with the plain acknowledgment, which carries no
    token; and no call at all is answered "Account already confirmed.". *)
Theorem resendConfirmOtp_success env w b user :
  resendConfirmOtp_errors b = [] ->
  findOne (account_query b) (admins w) = Some user ->
  delivers env (login_mail cfg (sanitize (Body.email_id b))
                  (randomNumber (draw env) 6)) = true ->
  store_accepts env = true ->
  (exists otp,
     numeric 6 otp
     /\ outbox (snd (resendConfirmOtp cfg env w b))
        = (outbox w ++ [login_mail cfg (sanitize (Body.email_id b)) otp])%list
     /\ admins (snd (resendConfirmOtp cfg env w b))
        = alter (set_confirmation false (Some otp)) (_id user) (admins w)
     /\ findOne (account_query b) (admins (snd (resendConfirmOtp cfg env w b)))
        = Some {| _id := _id user;
                  doc := set_confirmation false (Some otp) (doc user) |}
     /\ fst (resendConfirmOtp cfg env w b) = Some (successResponse "Confirm otp sent."))
  /\ (forall env' w' b',
        fst (resendConfirmOtp cfg env' w' b')
          <> Some (unauthorizedResponse "Account already confirmed.")).
Proof.
  intros Hv Hu Hm Hw. split.
  - exists (randomNumber (draw env) 6).
    split; [apply randomNumber_numeric|].
    pose proof (findOne_alter _ _ _ (set_confirmation false (Some (randomNumber (draw env) 6)))
                  (fun a => matches_set_confirmation _ false _ a) Hu) as Hu'.
    unfold resendConfirmOtp, account_query, mailer_send, save_modified in *.
    passed Hv. rewrite Hu, Hm, Hw. cbn [fst snd admins outbox].
    repeat split. exact Hu'.
  - intros env' w' b'. unfold resendConfirmOtp, mailer_send, save_modified.
    repeat case_match; simpl; congruence.
Qed.

(** *** register *)

Lemma validationResult_failed (chain : list (bool * FieldError)) (e : FieldError) :
  (false, e) ∈ chain -> e ∈ validationResult chain.
Proof.
  intros He. unfold validationResult. apply list_elem_of_omap.
  now exists (false, e).
Qed.

Lemma isEmpty_elem (errors : list FieldError) (e : FieldError) :
  e ∈ errors -> isEmpty errors = false.
Proof. destruct errors; [intros He; inversion He | reflexivity]. Qed.

Lemma unused_false (q : Query) (c : list Admin) :
  is_Some (findOne q c) -> unused q c = false.
Proof. intros [d Hd]. unfold unused. now rewrite Hd. Qed.

(** C8: when the email or the phone number of a registration already
    belongs to an account, the answer is the validation error with the
    errors of all the validators that failed, the duplicate's among them,
    and the world is left as it was: no account stored, no mail sent. *)
Theorem register_duplicate_rejected env w b :
  is_Some (findOne (by_email_id (sanitize (Body.email_id b))) (admins w))
  \/ is_Some (findOne (by_phone_number (sanitize (Body.phone_number b))) (admins w)) ->
  register cfg env w b =
    (Some (validationErrorWithData "Validation Error."
             (errors_array (register_errors (admins w) b))), w)
  /\ (forall e, (false, e) ∈ register_chain (admins w) b ->
                e ∈ register_errors (admins w) b)
  /\ (is_Some (findOne (by_email_id (sanitize (Body.email_id b))) (admins w)) ->
      {| param := "email_id"; msg := "E-mail already in use" |}
        ∈ register_errors (admins w) b)
  /\ (is_Some (findOne (by_phone_number (sanitize (Body.phone_number b))) (admins w)) ->
      {| param := "phone_number"; msg := "Phone number already in use" |}
        ∈ register_errors (admins w) b).
Proof.
  intros Hdup.
  assert (is_Some (findOne (by_email_id (sanitize (Body.email_id b))) (admins w)) ->
          {| param := "email_id"; msg := "E-mail already in use" |}
            ∈ register_errors (admins w) b) as Hemail.
  { intros Hd. apply validationResult_failed. unfold register_chain, rule.
    rewrite (unused_false _ _ Hd). repeat constructor. }
  assert (is_Some (findOne (by_phone_number (sanitize (Body.phone_number b))) (admins w)) ->
          {| param := "phone_number"; msg := "Phone number already in use" |}
            ∈ register_errors (admins w) b) as Hphone.
  { intros Hd. apply validationResult_failed. unfold register_chain, rule.
    rewrite (unused_false _ _ Hd). repeat constructor. }
  split; [|split; [|split]]; try assumption.
  - assert (isEmpty (register_errors (admins w) b) = false) as Hne.
    { destruct Hdup as [Hd|Hd]; eapply isEmpty_elem; eauto. }
    unfold register. now rewrite Hne.
  - intros e. apply validationResult_failed.
Qed.

(** C1, amended: a registration that passes all validations, whose mail
    is delivered and whose save the store applies, adds one account to
    the collection; that account has [isConfirmed] true, the schema
    default, which register does not override, and as [confirmOTP] the
    6-digit code that was mailed. *)
Theorem register_persists env w b :
  register_errors (admins w) b = [] ->
  delivers env (confirm_mail cfg (sanitize (Body.email_id b))
                  (randomNumber (draw env) 6)) = true ->
  store_accepts env = true ->
  exists a otp,
    admins (snd (register cfg env w b)) = (admins w ++ [a])%list
    /\ outbox (snd (register cfg env w b))
       = (outbox w ++ [confirm_mail cfg (sanitize (Body.email_id b)) otp])%list
    /\ isConfirmed a = true
    /\ confirmOTP a = Some otp
    /\ numeric 6 otp
    /\ email_id a = sanitize (Body.email_id b)
    /\ password a = bcrypt_hash (sanitize (Body.password b)) 10 (salt env)
    /\ exists userData,
         fst (register cfg env w b)
         = Some (successResponseWithData "Registration Success." (registered userData)).
Proof.
  intros Hv Hm Hw. unfold register, mailer_send, save_new.
  passed Hv. rewrite Hm, Hw. cbn [fst snd admins outbox _id doc].
  eexists _, (randomNumber (draw env) 6).
  split; [reflexivity|]. cbn [isConfirmed confirmOTP email_id password].
  repeat split; try apply randomNumber_numeric.
  eexists. reflexivity.
Qed.

(** *** What the three handlers leave alone *)

Lemma plain_touch (now : nat) (f : Admin -> Admin) (i : nat) (c : list Dated.Stored) :
  Dated.paths <$> alter (Dated.touch now f) i c = alter f i (Dated.paths <$> c).
Proof. apply list_fmap_alter, Forall_forall. reflexivity. Qed.

Lemma plain_save (now : nat) (f : Admin -> Admin) (i : nat) (c : list Dated.Stored) :
  Dated.paths <$> alter (fun x => if decide (f (Dated.paths x) = Dated.paths x) then x
                                  else Dated.touch now f x) i c
  = alter f i (Dated.paths <$> c).
Proof.
  apply list_fmap_alter, Forall_forall. intros x _.
  now destruct (decide _) as [->|].
Qed.

(** The handlers over dated documents do what the handlers over the
    declared paths do: the same answer, and the same world once the dates
    are left out. *)
Lemma dated_handlers_agree (now : nat) env (s : Dated.Store) b :
  (fst (Dated.login cfg now env s b) = fst (login cfg env (Dated.plain s) b)
   /\ Dated.plain (snd (Dated.login cfg now env s b))
      = snd (login cfg env (Dated.plain s) b))
  /\ (fst (Dated.verifyConfirm cfg now env s b)
      = fst (verifyConfirm cfg env (Dated.plain s) b)
      /\ Dated.plain (snd (Dated.verifyConfirm cfg now env s b))
         = snd (verifyConfirm cfg env (Dated.plain s) b))
  /\ (fst (Dated.resendConfirmOtp cfg now env s b)
      = fst (resendConfirmOtp cfg env (Dated.plain s) b)
      /\ Dated.plain (snd (Dated.resendConfirmOtp cfg now env s b))
         = snd (resendConfirmOtp cfg env (Dated.plain s) b)).
Proof.
  unfold Dated.login, Dated.verifyConfirm, Dated.resendConfirmOtp,
    login, verifyConfirm, resendConfirmOtp,
    Dated.mailer_send, mailer_send, Dated.findOneAndUpdate, findOneAndUpdate,
    Dated.save_modified, save_modified, Dated.findOne.
  cbn [admins outbox Dated.plain].
  repeat split; repeat case_match; simplify_eq;
    cbn [fst snd Dated.plain Dated.accounts Dated.mails admins outbox] in *;
    simplify_eq; unfold Dated.plain; cbn [Dated.accounts Dated.mails];
    rewrite ?plain_touch, ?plain_save; congruence.
Qed.

Lemma dated_frame_id (c : list Dated.Stored) : Forall2 Dated.frame c c.
Proof.
  apply Forall_Forall2_diag, Forall_forall. intros x _.
  split; [apply frame_refl | reflexivity].
Qed.

Lemma dated_frame_touch (now : nat) (flag : bool) otp (i : nat) (c : list Dated.Stored) :
  Forall2 Dated.frame c (alter (Dated.touch now (set_confirmation flag otp)) i c).
Proof.
  apply Forall2_alter_r; [apply dated_frame_id|].
  intros x y _ _ [Hp Hd]. split; [exact Hp | exact Hd].
Qed.

Lemma dated_frame_save (now : nat) (flag : bool) otp (i : nat) (c : list Dated.Stored) :
  Forall2 Dated.frame c
    (alter (fun x => if decide (set_confirmation flag otp (Dated.paths x) = Dated.paths x)
                     then x else Dated.touch now (set_confirmation flag otp) x) i c).
Proof.
  apply Forall2_alter_r; [apply dated_frame_id|].
  intros x y _ _ [Hp Hd]. destruct (decide _); split; assumption.
Qed.

(** C10, amended: a call of login, verifyConfirm or resendConfirmOtp
    leaves the collection with the same documents in the same places (none
    removed, none added), each differing from what it was at most in
    [isConfirmed], [confirmOTP] and the [updatedAt] date that the schema's
    timestamps keep: every other declared path and [createdAt] are as they
    were. *)
Theorem only_confirmation_and_date_change (now : nat) env (s : Dated.Store) b :
  Forall2 Dated.frame (Dated.accounts s)
    (Dated.accounts (snd (Dated.login cfg now env s b)))
  /\ Forall2 Dated.frame (Dated.accounts s)
       (Dated.accounts (snd (Dated.verifyConfirm cfg now env s b)))
  /\ Forall2 Dated.frame (Dated.accounts s)
       (Dated.accounts (snd (Dated.resendConfirmOtp cfg now env s b))).
Proof.
  unfold Dated.login, Dated.verifyConfirm, Dated.resendConfirmOtp,
    Dated.mailer_send, Dated.findOneAndUpdate, Dated.save_modified.
  repeat split; repeat case_match; simplify_eq; cbn [fst snd Dated.accounts];
    first [apply dated_frame_id | apply dated_frame_touch | apply dated_frame_save].
Qed.

End Claims.

(** ** The handlers on concrete requests *)

Section Runs.

Import Sample.

(** *** register *)

(** C1 fails as stated: jane's registration stores her account with
    [isConfirmed] true. *)
Lemma register_unconfirmed_counterexample :
  ~ register_unconfirmed cfg env empty jane.
Proof.
  intros Hc.
  destruct (Hc eq_refl eq_refl (account true true true) eq_refl) as [Hf _].
  discriminate Hf.
Qed.

Lemma register_persists_witness :
  register_errors (admins empty) jane = []
  /\ delivers env (confirm_mail cfg (sanitize (Body.email_id jane))
                     (randomNumber (draw env) 6)) = true
  /\ store_accepts env = true
  /\ exists a otp,
      admins (snd (register cfg env empty jane)) = (admins empty ++ [a])%list
      /\ outbox (snd (register cfg env empty jane))
         = (outbox empty ++ [confirm_mail cfg (sanitize (Body.email_id jane)) otp])%list
      /\ isConfirmed a = true
      /\ confirmOTP a = Some otp
      /\ numeric 6 otp
      /\ email_id a = sanitize (Body.email_id jane)
      /\ password a = bcrypt_hash (sanitize (Body.password jane)) 10 (salt env)
      /\ exists userData,
           fst (register cfg env empty jane)
           = Some (successResponseWithData "Registration Success." (registered userData)).
Proof.
  assert (register_errors (admins empty) jane = []) as h1 by reflexivity.
  assert (delivers env (confirm_mail cfg (sanitize (Body.email_id jane))
                          (randomNumber (draw env) 6)) = true) as h2 by reflexivity.
  assert (store_accepts env = true) as h3 by reflexivity.
  exact (conj h1 (conj h2 (conj h3 (register_persists cfg env empty jane h1 h2 h3)))).
Defined.

Lemma register_duplicate_rejected_witness :
  (is_Some (findOne (by_email_id (sanitize (Body.email_id jane))) (admins with_jane))
   \/ is_Some (findOne (by_phone_number (sanitize (Body.phone_number jane)))
                (admins with_jane)))
  /\ register cfg later with_jane jane =
       (Some (validationErrorWithData "Validation Error."
                (errors_array (register_errors (admins with_jane) jane))), with_jane).
Proof.
  assert (is_Some (findOne (by_email_id (sanitize (Body.email_id jane)))
                     (admins with_jane))) as h1
    by exact (mk_is_Some _ (jane_doc (account true true true)) eq_refl).
  exact (conj (or_introl h1)
           (proj1 (register_duplicate_rejected cfg later with_jane jane (or_introl h1)))).
Defined.

(** *** login *)

Lemma login_unconfirmed_rejected_witness :
  login_errors jane_login = []
  /\ findOne (account_query jane_login) (admins (only (account false false true)))
     = Some (jane_doc (account false false true))
  /\ bcrypt_compare (sanitize (Body.password jane_login))
       (password (account false false true)) = true
  /\ isConfirmed (account false false true) = false
  /\ login cfg env (only (account false false true)) jane_login =
       (Some (unauthorizedResponse
                "Account is not confirmed. Please confirm your account."),
        only (account false false true)).
Proof.
  assert (login_errors jane_login = []) as h1 by reflexivity.
  assert (findOne (account_query jane_login) (admins (only (account false false true)))
          = Some (jane_doc (account false false true))) as h2 by reflexivity.
  assert (bcrypt_compare (sanitize (Body.password jane_login))
            (password (account false false true)) = true) as h3 by reflexivity.
  assert (isConfirmed (account false false true) = false) as h4 by reflexivity.
  exact (conj h1 (conj h2 (conj h3 (conj h4
           (login_unconfirmed_rejected cfg env _ jane_login _ h1 h2 h3 h4))))).
Defined.

(** C2 fails as stated: a confirmed account with [is_active] false and
    [status] true logs in and is given a token. *)
Lemma inactive_refused_counterexample :
  ~ inactive_refused cfg env (only (account true false true)) jane_login.
Proof.
  intros Hc.
  specialize (Hc (jane_doc (account true false true))
                eq_refl eq_refl eq_refl eq_refl eq_refl).
  vm_compute in Hc. discriminate Hc.
Qed.

Lemma login_status_off_rejected_witness :
  login_errors jane_login = []
  /\ findOne (account_query jane_login) (admins (only (account true true false)))
     = Some (jane_doc (account true true false))
  /\ bcrypt_compare (sanitize (Body.password jane_login))
       (password (account true true false)) = true
  /\ isConfirmed (account true true false) = true
  /\ status (account true true false) = false
  /\ login cfg env (only (account true true false)) jane_login =
       (Some (unauthorizedResponse "Account is not active. Please contact admin."),
        only (account true true false)).
Proof.
  assert (login_errors jane_login = []) as h1 by reflexivity.
  assert (findOne (account_query jane_login) (admins (only (account true true false)))
          = Some (jane_doc (account true true false))) as h2 by reflexivity.
  assert (bcrypt_compare (sanitize (Body.password jane_login))
            (password (account true true false)) = true) as h3 by reflexivity.
  assert (isConfirmed (account true true false) = true) as h4 by reflexivity.
  assert (status (account true true false) = false) as h5 by reflexivity.
  exact (conj h1 (conj h2 (conj h3 (conj h4 (conj h5
           (login_status_off_rejected cfg env _ jane_login _ h1 h2 h3 h4 h5)))))).
Defined.


(** C9 fails as stated: with the transport down, a login that passes
    every check stores nothing and answers nothing. *)
Lemma login_reconfirms_counterexample :
  ~ login_reconfirms cfg env_undelivered with_jane jane_login.
Proof.
  intros Hc.
  destruct (Hc (jane_doc (account true true true))
              eq_refl eq_refl eq_refl eq_refl eq_refl) as (otp & _ & _ & _ & Hr).
  vm_compute in Hr. discriminate Hr.
Qed.

Lemma login_success_witness :
  fst (login cfg later with_jane jane_login)
  = Some (successResponseWithData "Login Success."
            (session_of cfg (jane_doc (account true true true)))).
Proof.
  assert (login_errors jane_login = []) as h1 by reflexivity.
  assert (findOne (account_query jane_login) (admins with_jane)
          = Some (jane_doc (account true true true))) as h2 by reflexivity.
  assert (bcrypt_compare (sanitize (Body.password jane_login))
            (password (account true true true)) = true) as h3 by reflexivity.
  assert (isConfirmed (account true true true) = true) as h4 by reflexivity.
  assert (status (account true true true) = true) as h5 by reflexivity.
  assert (delivers later (login_mail cfg (sanitize (Body.email_id jane_login))
                            (randomNumber (draw later) 6)) = true) as h6 by reflexivity.
  assert (store_accepts later = true) as h7 by reflexivity.
  destruct (login_success cfg later with_jane jane_login _ h1 h2 h3 h4 h5 h6 h7)
    as (otp & _ & _ & _ & _ & Hr).
  exact Hr.
Defined.

(** *** verifyConfirm *)

(** C5 fails as stated: with the store refusing the update, the right
    code is answered with a token while the account stays unconfirmed and
    keeps its code. *)
Lemma verifyConfirm_confirms_counterexample :
  ~ verifyConfirm_confirms cfg env_refused with_jane_again
      (request "jane@x.com" "" "681470").
Proof.
  intros Hc.
  destruct (Hc (jane_doc (set_confirmation false (Some "681470") (account true true true)))
              eq_refl eq_refl eq_refl) as [Hl _].
  vm_compute in Hl. discriminate Hl.
Qed.

Lemma verifyConfirm_success_witness :
  verifyConfirm_errors (request "jane@x.com" "" "681470") = []
  /\ store_accepts env = true
  /\ admins (snd (verifyConfirm cfg env with_jane_again (request "jane@x.com" "" "681470")))
       !! 0
     = Some (set_confirmation true None (account true true true)).
Proof.
  assert (verifyConfirm_errors (request "jane@x.com" "" "681470") = []) as h1
    by reflexivity.
  assert (findOne (account_query (request "jane@x.com" "" "681470"))
            (admins with_jane_again)
          = Some (jane_doc (set_confirmation false (Some "681470")
                              (account true true true)))) as h2 by reflexivity.
  assert (confirmOTP (set_confirmation false (Some "681470") (account true true true))
          = Some (sanitize (Body.otp (request "jane@x.com" "" "681470")))) as h3
    by reflexivity.
  assert (store_accepts env = true) as h4 by reflexivity.
  exact (conj h1 (conj h4
           (proj1 (proj2 (verifyConfirm_success cfg env with_jane_again _ _ h1 h2 h3 h4))))).
Defined.

(** C6 fails as stated: an otp with blanks around the stored code differs
    from it as submitted, and is accepted. *)
Lemma mismatch_refused_counterexample :
  ~ mismatch_refused cfg env with_jane_again (request "jane@x.com" "" " 681470 ").
Proof.
  intros Hc.
  assert (confirmOTP (set_confirmation false (Some "681470") (account true true true))
          <> Some (Body.otp (request "jane@x.com" "" " 681470 "))) as Hne by discriminate.
  specialize (Hc (jane_doc (set_confirmation false (Some "681470") (account true true true)))
                eq_refl eq_refl Hne).
  vm_compute in Hc. discriminate Hc.
Qed.

Lemma verifyConfirm_mismatch_witness :
  verifyConfirm_errors (request "jane@x.com" "" "123456") = []
  /\ confirmOTP (account true true true) <> Some (sanitize (Body.otp
                                                  (request "jane@x.com" "" "123456")))
  /\ verifyConfirm cfg env with_jane (request "jane@x.com" "" "123456")
     = (Some (unauthorizedResponse "Otp does not match"), with_jane).
Proof.
  assert (verifyConfirm_errors (request "jane@x.com" "" "123456") = []) as h1
    by reflexivity.
  assert (findOne (account_query (request "jane@x.com" "" "123456")) (admins with_jane)
          = Some (jane_doc (account true true true))) as h2 by reflexivity.
  assert (confirmOTP (account true true true)
          <> Some (sanitize (Body.otp (request "jane@x.com" "" "123456")))) as h3
    by discriminate.
  exact (conj h1 (conj h3
           (verifyConfirm_mismatch cfg env with_jane _ (jane_doc _) h1 h2 h3))).
Defined.

(** *** resendConfirmOtp *)

(** C3 fails as stated: with the transport down nothing is stored and
    nothing is answered. *)
Lemma resend_regenerates_counterexample :
  ~ resend_regenerates cfg env_undelivered with_jane (request "jane@x.com" "" "").
Proof.
  intros Hc.
  destruct (Hc (jane_doc (account true true true)) eq_refl eq_refl)
    as (otp & _ & _ & Hr).
  vm_compute in Hr. discriminate Hr.
Qed.

Lemma resendConfirmOtp_success_witness :
  resendConfirmOtp_errors (request "jane@x.com" "" "") = []
  /\ isConfirmed (account true true true) = true
  /\ resendConfirmOtp cfg later with_jane (request "jane@x.com" "" "")
     = (Some (successResponse "Confirm otp sent."), with_jane_again).
Proof.
  assert (resendConfirmOtp_errors (request "jane@x.com" "" "") = []) as h1
    by reflexivity.
  assert (findOne (account_query (request "jane@x.com" "" "")) (admins with_jane)
          = Some (jane_doc (account true true true))) as h2 by reflexivity.
  assert (delivers later (login_mail cfg (sanitize (Body.email_id
                                                      (request "jane@x.com" "" "")))
                            (randomNumber (draw later) 6)) = true) as h3 by reflexivity.
  assert (store_accepts later = true) as h4 by reflexivity.
  destruct (resendConfirmOtp_success cfg later with_jane _ _ h1 h2 h3 h4)
    as [(otp & _ & _ & _ & _ & Hr) _].
  refine (conj h1 (conj eq_refl _)).
  rewrite (surjective_pairing (resendConfirmOtp _ _ _ _)), Hr. reflexivity.
Defined.

(** *** The dates *)

(** C10 fails as stated: a verification at time 2000 of an account stored
    at time 1000 moves its [updatedAt]. *)
Lemma only_confirmation_mutated_counterexample :
  ~ Dated.only_confirmation_mutated cfg 2000 env (stored_at 1000 with_jane)
      (request "jane@x.com" "secret1" "407418").
Proof.
  intros Hc.
  destruct (Hc (mk_is_Some _ (jane_doc (account true true true)) eq_refl))
    as (_ & Hv & _).
  vm_compute in Hv.
  inversion Hv as [|x x' c c' [_ Hd] _]. discriminate Hd.
Qed.

End Runs.

(** ** Further properties of the four handlers *)

Section Outcomes.

Context `{Validator, Bcrypt, Jwt}.
Variable cfg : Config.

Implicit Types (env : Env) (w : World) (b : Body.t) (user : Document).

Lemma isEmpty_true (errors : list FieldError) : isEmpty errors = true -> errors = [].
Proof. now destruct errors. Qed.

Lemma validationResult_nil (chain : list (bool * FieldError)) :
  validationResult chain = [] -> Forall (fun r => fst r = true) chain.
Proof.
  unfold validationResult. induction chain as [|[ok e] chain IH]; [constructor|].
  destruct ok; cbn; [|discriminate]. intros Hn. constructor; auto.
Qed.

Ltac validated E :=
  destruct (isEmpty _) eqn:E; cbn [negb];
  [apply isEmpty_true in E|].

(** X1: login answers with a session only to a request that passed the
    validation chain, for an account found under the sanitized email whose
    stored hash matches the password and whose [isConfirmed] and [status]
    are both true; the session is that account's. *)
Theorem login_session_sound env w b message data :
  fst (login cfg env w b) = Some (successResponseWithData message data) ->
  exists user,
    login_errors b = []
    /\ findOne (account_query b) (admins w) = Some user
    /\ bcrypt_compare (sanitize (Body.password b)) (password (doc user)) = true
    /\ isConfirmed (doc user) = true
    /\ status (doc user) = true
    /\ message = "Login Success."
    /\ data = session_of cfg user.
Proof.
  unfold login, account_query, mailer_send. validated E; [|discriminate].
  destruct (findOne _ _) as [user|]; [|discriminate].
  destruct (bcrypt_compare _ _) eqn:Hp; [|discriminate].
  destruct (isConfirmed _) eqn:Hc; [|discriminate].
  destruct (status _) eqn:Hs; [|discriminate].
  destruct (delivers _ _); [|discriminate].
  cbn [fst]. intros Hr. injection Hr as <- <-.
  exists user. repeat split; assumption.
Qed.

(** X2: verifyConfirm answers with a session only when the account found
    under the sanitized email stores exactly the sanitized otp of the
    request; an account whose [confirmOTP] is null is never verified. *)
Theorem verifyConfirm_session_sound env w b message data :
  fst (verifyConfirm cfg env w b) = Some (successResponseWithData message data) ->
  exists user,
    verifyConfirm_errors b = []
    /\ findOne (account_query b) (admins w) = Some user
    /\ confirmOTP (doc user) = Some (sanitize (Body.otp b))
    /\ data = session_of cfg user.
Proof.
  unfold verifyConfirm, account_query. validated E; [|discriminate].
  destruct (findOne _ _) as [user|]; [|discriminate].
  destruct (loose_eq _ _) eqn:Ho; [|discriminate].
  cbn [fst]. intros Hr. injection Hr as <- <-.
  exists user. repeat split; try assumption.
  destruct (confirmOTP (doc user)) as [s|]; [|discriminate].
  cbn in Ho. apply bool_decide_eq_true in Ho. now subst.
Qed.

(** X3: the two ways a valid registration fails.  When the mail is not
    delivered the answer is the delivery error and nothing is stored; when
    the mail is delivered and the store refuses the save, the answer is the
    store error, nothing is stored, and the mail has gone out all the
    same. *)
Theorem register_failures env w b :
  register_errors (admins w) b = [] ->
  (delivers env (confirm_mail cfg (sanitize (Body.email_id b))
                   (randomNumber (draw env) 6)) = false ->
   register cfg env w b = (Some (ErrorResponse DeliveryError), w))
  /\ (delivers env (confirm_mail cfg (sanitize (Body.email_id b))
                      (randomNumber (draw env) 6)) = true ->
      store_accepts env = false ->
      register cfg env w b =
        (Some (ErrorResponse StoreError),
         {| admins := admins w;
            outbox := outbox w ++ [confirm_mail cfg (sanitize (Body.email_id b))
                                     (randomNumber (draw env) 6)] |})).
Proof.
  intros Hv. unfold register, mailer_send, save_new. rewrite Hv. cbn [isEmpty negb].
  split.
  - now intros ->.
  - now intros -> ->.
Qed.

(** X4: verifyConfirm and resendConfirmOtp on an email that matches no
    account answer Unauthorized with the message that names the email as
    unknown (unlike login), and change nothing. *)
Theorem unknown_email_named env w b :
  findOne (account_query b) (admins w) = None ->
  (verifyConfirm_errors b = [] ->
   verifyConfirm cfg env w b
   = (Some (unauthorizedResponse "Specified email not found."), w))
  /\ (resendConfirmOtp_errors b = [] ->
      resendConfirmOtp cfg env w b
      = (Some (unauthorizedResponse "Specified email not found."), w)).
Proof.
  intros Hu. unfold verifyConfirm, resendConfirmOtp, account_query in *.
  split; intros ->; cbn [isEmpty negb]; now rewrite Hu.
Qed.

(** X5: a request that is turned down, by a validation error or by an
    Unauthorized, has no effect: no document is written and no mail is
    sent, in any of the four handlers. *)
Theorem rejections_change_nothing env w b :
  (rejection (fst (register cfg env w b)) = true -> snd (register cfg env w b) = w)
  /\ (rejection (fst (login cfg env w b)) = true -> snd (login cfg env w b) = w)
  /\ (rejection (fst (verifyConfirm cfg env w b)) = true ->
      snd (verifyConfirm cfg env w b) = w)
  /\ (rejection (fst (resendConfirmOtp cfg env w b)) = true ->
      snd (resendConfirmOtp cfg env w b) = w).
Proof.
  unfold register, login, verifyConfirm, resendConfirmOtp,
    mailer_send, save_new, save_modified.
  repeat split; repeat case_match; simplify_eq; cbn [fst snd rejection];
    solve [reflexivity | discriminate].
Qed.

(** X6: a call sends at most one mail, and only to the sanitized address
    of the request: the confirmation mail for register, the login mail for
    login and resendConfirmOtp, each carrying the code just drawn;
    verifyConfirm sends none. *)
Theorem at_most_one_mail env w b :
  let otp := randomNumber (draw env) 6 in
  let to := sanitize (Body.email_id b) in
  (outbox (snd (register cfg env w b)) = outbox w
   \/ outbox (snd (register cfg env w b)) = (outbox w ++ [confirm_mail cfg to otp])%list)
  /\ (outbox (snd (login cfg env w b)) = outbox w
      \/ outbox (snd (login cfg env w b)) = (outbox w ++ [login_mail cfg to otp])%list)
  /\ outbox (snd (verifyConfirm cfg env w b)) = outbox w
  /\ (outbox (snd (resendConfirmOtp cfg env w b)) = outbox w
      \/ outbox (snd (resendConfirmOtp cfg env w b))
         = (outbox w ++ [login_mail cfg to otp])%list).
Proof.
  unfold register, login, verifyConfirm, resendConfirmOtp,
    mailer_send, save_new, save_modified, findOneAndUpdate.
  cbn zeta.
  repeat split; repeat case_match; simplify_eq; cbn [fst snd outbox]; auto.
Qed.

(** X7: register never touches the documents already stored: the
    collection it leaves starts with the collection it found, followed by
    at most one new document. *)
Theorem register_keeps_documents env w b :
  admins w `prefix_of` admins (snd (register cfg env w b))
  /\ length (admins (snd (register cfg env w b))) <= S (length (admins w)).
Proof.
  unfold register, mailer_send, save_new.
  repeat case_match; simplify_eq; cbn [fst snd admins];
    (split; [first [reflexivity | now eexists] | rewrite ?length_app; cbn; lia]).
Qed.

Lemma findOne_value_fresh (f : Admin -> string) (q : Query) (v : string) (c : list Admin) :
  (forall a, matches q a = bool_decide (f a = v)) ->
  findOne q c = None -> v ∉ f <$> c.
Proof.
  intros Hq Hn Hin. unfold findOne in Hn.
  destruct (list_find (matches q) c) as [p|] eqn:E; [discriminate|].
  apply list_find_None in E. rewrite Forall_forall in E.
  apply list_elem_of_fmap in Hin as (a & -> & Ha).
  apply (E a Ha). rewrite Hq. now apply bool_decide_pack.
Qed.

Lemma frame_paths (c c' : list Admin) :
  Forall2 frame c c' ->
  email_id <$> c' = email_id <$> c /\ phone_number <$> c' = phone_number <$> c.
Proof.
  induction 1 as [|a a' c c' Hf _ [IHe IHp]]; [easy|].
  destruct Hf as (_ & _ & He & _ & _ & _ & _ & Hp & _).
  cbn. now rewrite He, Hp, IHe, IHp.
Qed.

Lemma writes_framed env w b :
  Forall2 frame (admins w) (admins (snd (login cfg env w b)))
  /\ Forall2 frame (admins w) (admins (snd (verifyConfirm cfg env w b)))
  /\ Forall2 frame (admins w) (admins (snd (resendConfirmOtp cfg env w b))).
Proof.
  unfold login, verifyConfirm, resendConfirmOtp,
    mailer_send, findOneAndUpdate, save_modified.
  repeat split; repeat case_match; simplify_eq; cbn [fst snd admins];
    first [apply frame_id | apply frame_alter].
Qed.

(** X8: one account per email and per phone number.  If no two stored
    accounts share an email, none do after a call of any of the four
    handlers, and the same holds for phone numbers: register checks both
    before it stores, and the other three never write either path. *)
Theorem one_account_per_email_and_phone env w b :
  distinct email_id (admins w) ->
  distinct phone_number (admins w) ->
  (distinct email_id (admins (snd (register cfg env w b)))
   /\ distinct phone_number (admins (snd (register cfg env w b))))
  /\ (distinct email_id (admins (snd (login cfg env w b)))
      /\ distinct phone_number (admins (snd (login cfg env w b))))
  /\ (distinct email_id (admins (snd (verifyConfirm cfg env w b)))
      /\ distinct phone_number (admins (snd (verifyConfirm cfg env w b))))
  /\ (distinct email_id (admins (snd (resendConfirmOtp cfg env w b)))
      /\ distinct phone_number (admins (snd (resendConfirmOtp cfg env w b)))).
Proof.
  intros He Hp. unfold distinct in *.
  destruct (writes_framed env w b) as (Hl & Hv & Hr).
  apply frame_paths in Hl as [-> ->], Hv as [-> ->], Hr as [-> ->].
  split; [|now repeat split].
  unfold register, mailer_send, save_new.
  validated E; cbn [snd]; [|now split].
  apply validationResult_nil in E. unfold register_chain, rule in E.
  repeat (apply Forall_cons in E as [? E]). cbn [fst] in *.
  repeat case_match; simplify_eq; cbn [fst snd admins]; try now split.
  rewrite !fmap_app. cbn [fmap list_fmap email_id phone_number].
  unfold unused in *.
  split; apply NoDup_app; (split; [assumption|]); (split; [|apply NoDup_singleton]);
    intros x Hx ->%list_elem_of_singleton; revert Hx.
  - eapply (findOne_value_fresh email_id (by_email_id _)); [reflexivity|].
    now destruct (findOne (by_email_id _) _).
  - eapply (findOne_value_fresh phone_number (by_phone_number _)); [reflexivity|].
    now destruct (findOne (by_phone_number _) _).
Qed.

(** *** One request after another *)

Lemma verifyConfirm_done env w b user :
  verifyConfirm_errors b = [] ->
  findOne (account_query b) (admins w) = Some user ->
  confirmOTP (doc user) = Some (sanitize (Body.otp b)) ->
  verifyConfirm cfg env w b =
    (Some (successResponseWithData "Login Success." (session_of cfg user)),
     findOneAndUpdate env (account_query b) (set_confirmation true None) w).
Proof.
  intros Hv Hu Ho. unfold verifyConfirm, account_query in *.
  rewrite Hv, Hu, Ho. cbn. now rewrite bool_decide_true.
Qed.

Lemma findOneAndUpdate_done env q f w user :
  store_accepts env = true ->
  findOne q (admins w) = Some user ->
  findOneAndUpdate env q f w
  = {| admins := alter f (_id user) (admins w); outbox := outbox w |}.
Proof. intros Hw Hu. unfold findOneAndUpdate. now rewrite Hw, Hu. Qed.

Lemma resendConfirmOtp_done env w b user :
  resendConfirmOtp_errors b = [] ->
  findOne (account_query b) (admins w) = Some user ->
  delivers env (login_mail cfg (sanitize (Body.email_id b))
                  (randomNumber (draw env) 6)) = true ->
  store_accepts env = true ->
  resendConfirmOtp cfg env w b =
    (Some (successResponse "Confirm otp sent."),
     {| admins := alter (set_confirmation false (Some (randomNumber (draw env) 6)))
                    (_id user) (admins w);
        outbox := outbox w ++ [login_mail cfg (sanitize (Body.email_id b))
                                 (randomNumber (draw env) 6)] |}).
Proof.
  intros Hv Hu Hm Hw.
  unfold resendConfirmOtp, account_query, mailer_send, save_modified in *.
  now rewrite Hv, Hu, Hm, Hw.
Qed.

Lemma login_done env w b user :
  login_errors b = [] ->
  findOne (account_query b) (admins w) = Some user ->
  bcrypt_compare (sanitize (Body.password b)) (password (doc user)) = true ->
  isConfirmed (doc user) = true ->
  status (doc user) = true ->
  delivers env (login_mail cfg (sanitize (Body.email_id b))
                  (randomNumber (draw env) 6)) = true ->
  login cfg env w b =
    (Some (successResponseWithData "Login Success." (session_of cfg user)),
     findOneAndUpdate env (account_query b)
       (set_confirmation true (Some (randomNumber (draw env) 6)))
       {| admins := admins w;
          outbox := outbox w ++ [login_mail cfg (sanitize (Body.email_id b))
                                   (randomNumber (draw env) 6)] |}).
Proof.
  intros Hv Hu Hp Hc Hs Hm. unfold login, account_query, mailer_send in *.
  now rewrite Hv, Hu, Hp, Hc, Hs, Hm.
Qed.

Lemma findOne_updated q c user (flag : bool) otp :
  findOne q c = Some user ->
  findOne q (alter (set_confirmation flag otp) (_id user) c)
  = Some {| _id := _id user; doc := set_confirmation flag otp (doc user) |}.
Proof.
  apply findOne_alter. intros a. apply matches_set_confirmation.
Qed.

(** X9: a code is good for one verification.  Once verifyConfirm has
    accepted a code and the store has applied the update, every further
    verifyConfirm for that account, whatever otp it brings, is answered
    "Otp does not match" and changes nothing, until a new code is stored. *)
Theorem otp_single_use env w b user env' b' :
  verifyConfirm_errors b = [] ->
  findOne (account_query b) (admins w) = Some user ->
  confirmOTP (doc user) = Some (sanitize (Body.otp b)) ->
  store_accepts env = true ->
  verifyConfirm_errors b' = [] ->
  account_query b' = account_query b ->
  verifyConfirm cfg env' (snd (verifyConfirm cfg env w b)) b'
  = (Some (unauthorizedResponse "Otp does not match"), snd (verifyConfirm cfg env w b)).
Proof.
  intros Hv Hu Ho Hw Hv' Hq.
  rewrite (verifyConfirm_done _ _ _ _ Hv Hu Ho), (findOneAndUpdate_done _ _ _ _ _ Hw Hu).
  cbn [snd]. unfold verifyConfirm. rewrite Hv'. cbn [isEmpty negb].
  change (by_email_id (sanitize (Body.email_id b'))) with (account_query b').
  rewrite Hq. cbn [admins]. now rewrite (findOne_updated _ _ _ _ _ Hu).
Qed.



(** X12: resendConfirmOtp bars the account from login.  After a
    resendConfirmOtp whose mail was delivered and whose save was applied, a
    login for that account with the right password is answered "Account is
    not confirmed", even when the account was confirmed before. *)
Theorem resend_bars_login env w b user env' b' :
  resendConfirmOtp_errors b = [] ->
  findOne (account_query b) (admins w) = Some user ->
  delivers env (login_mail cfg (sanitize (Body.email_id b))
                  (randomNumber (draw env) 6)) = true ->
  store_accepts env = true ->
  login_errors b' = [] ->
  account_query b' = account_query b ->
  bcrypt_compare (sanitize (Body.password b')) (password (doc user)) = true ->
  login cfg env' (snd (resendConfirmOtp cfg env w b)) b'
  = (Some (unauthorizedResponse
             "Account is not confirmed. Please confirm your account."),
     snd (resendConfirmOtp cfg env w b)).
Proof.
  intros Hv Hu Hm Hw Hv' Hq Hp.
  rewrite (resendConfirmOtp_done _ _ _ _ Hv Hu Hm Hw). cbn [snd].
  unfold login. rewrite Hv'. cbn [isEmpty negb].
  change (by_email_id (sanitize (Body.email_id b'))) with (account_query b').
  rewrite Hq. cbn [admins].
  rewrite (findOne_updated _ _ _ _ _ Hu). cbn [doc set_confirmation password isConfirmed].
  now rewrite Hp.
Qed.

(** X13: wrong guesses never lock an account.  Any series of
    verifyConfirm requests for an account that all bring a wrong otp leaves
    the world as it was ([otpTries] included), and the right code is
    accepted after them as it would have been before. *)
Theorem wrong_guesses_never_lock env w user guesses b :
  findOne (account_query b) (admins w) = Some user ->
  Forall (fun g => verifyConfirm_errors g = []
                   /\ account_query g = account_query b
                   /\ confirmOTP (doc user) <> Some (sanitize (Body.otp g))) guesses ->
  verifyConfirm_errors b = [] ->
  confirmOTP (doc user) = Some (sanitize (Body.otp b)) ->
  attempts cfg env w guesses = w
  /\ fst (verifyConfirm cfg env (attempts cfg env w guesses) b)
     = Some (successResponseWithData "Login Success." (session_of cfg user)).
Proof.
  intros Hu Hg Hv Ho.
  assert (attempts cfg env w guesses = w) as ->.
  { unfold attempts. induction Hg as [|g guesses (Hgv & Hgq & Hgo) _ IH]; [reflexivity|].
    cbn [foldl]. replace (snd (verifyConfirm cfg env w g)) with w; [exact IH|].
    unfold verifyConfirm. rewrite Hgv. cbn [isEmpty negb].
    change (by_email_id (sanitize (Body.email_id g))) with (account_query g).
    rewrite Hgq, Hu.
    destruct (loose_eq _ _) eqn:E; [|reflexivity].
    destruct (confirmOTP (doc user)) as [s|]; [|discriminate].
    cbn in E. apply bool_decide_eq_true in E. now subst. }
  split; [reflexivity|].
  now rewrite (verifyConfirm_done _ _ _ _ Hv Hu Ho).
Qed.

Lemma register_done env w b :
  register_errors (admins w) b = [] ->
  delivers env (confirm_mail cfg (sanitize (Body.email_id b))
                  (randomNumber (draw env) 6)) = true ->
  store_accepts env = true ->
  snd (register cfg env w b)
  = {| admins := admins w ++ [registration env b];
       outbox := outbox w ++ [confirm_mail cfg (sanitize (Body.email_id b))
                                (randomNumber (draw env) 6)] |}.
Proof.
  intros Hv Hm Hw. unfold register, mailer_send, save_new.
  now rewrite Hv, Hm, Hw.
Qed.

Lemma findOne_app_new q (c : list Admin) (a : Admin) :
  findOne q c = None -> matches q a = true ->
  findOne q (c ++ [a]) = Some {| _id := length c; doc := a |}.
Proof.
  unfold findOne. intros Hn Ha.
  destruct (list_find (matches q) c) as [p|] eqn:E; [discriminate|].
  rewrite (list_find_app_r _ _ _ E). cbn. now rewrite Ha.
Qed.

Lemma unused_true q (c : list Admin) : unused q c = true -> findOne q c = None.
Proof. unfold unused. now destruct (findOne q c). Qed.

(** X14: a registered account can log in at once.  After a registration
    that was stored, a login with the same body (bcrypt accepting a
    password against its own hash, the login mail delivered) is answered
    with a session for the new account, whose [_id] is its place in the
    collection: no verifyConfirm is needed in between. *)
Theorem registered_can_login env w b env' :
  register_errors (admins w) b = [] ->
  delivers env (confirm_mail cfg (sanitize (Body.email_id b))
                  (randomNumber (draw env) 6)) = true ->
  store_accepts env = true ->
  (forall data rounds salt, bcrypt_compare data (bcrypt_hash data rounds salt) = true) ->
  delivers env' (login_mail cfg (sanitize (Body.email_id b))
                   (randomNumber (draw env') 6)) = true ->
  fst (login cfg env' (snd (register cfg env w b)) b)
  = Some (successResponseWithData "Login Success."
            (session_of cfg {| _id := length (admins w); doc := registration env b |})).
Proof.
  intros Hv Hm Hw Hb Hm'. rewrite (register_done _ _ _ Hv Hm Hw).
  pose proof (validationResult_nil _ Hv) as Hr. unfold register_chain, rule in Hr.
  repeat (apply Forall_cons in Hr as [? Hr]). cbn [fst] in *.
  assert (login_errors b = []) as Hl.
  { assert (isLength 1 (Body.password b) = true) as Hp.
    { match goal with
      | Hp : isLength 6 _ = true |- _ =>
          unfold isLength in *; apply Nat.leb_le in Hp; apply Nat.leb_le; lia
      end. }
    unfold login_errors, login_chain, email_chain, rule, validationResult.
    rewrite Hp.
    repeat match goal with
           | Hx : isLength 1 (Body.email_id b) = true |- _ => rewrite Hx; clear Hx
           | Hx : isEmail _ = true |- _ => rewrite Hx; clear Hx
           end.
    reflexivity. }
  match goal with |- context [login cfg env' ?W b] => set (w1 := W) end.
  assert (findOne (account_query b) (admins w1)
          = Some {| _id := length (admins w); doc := registration env b |}) as Hu.
  { subst w1. cbn [admins]. apply findOne_app_new.
    - now apply unused_true.
    - cbn. now apply bool_decide_eq_true. }
  rewrite (login_done env' w1 b _ Hl Hu); [reflexivity|apply Hb|reflexivity|reflexivity|exact Hm'].
Qed.

(** X15: a stored registration blocks the next one with the same email.
    After a registration that was stored, a registration whose sanitized
    email is the same is answered with a validation error that lists
    "E-mail already in use", and stores and mails nothing. *)
Theorem registered_email_taken env w b env' b' :
  register_errors (admins w) b = [] ->
  delivers env (confirm_mail cfg (sanitize (Body.email_id b))
                  (randomNumber (draw env) 6)) = true ->
  store_accepts env = true ->
  sanitize (Body.email_id b') = sanitize (Body.email_id b) ->
  let w1 := snd (register cfg env w b) in
  register cfg env' w1 b' =
    (Some (validationErrorWithData "Validation Error."
             (errors_array (register_errors (admins w1) b'))), w1)
  /\ {| param := "email_id"; msg := "E-mail already in use" |}
       ∈ register_errors (admins w1) b'.
Proof.
  intros Hv Hm Hw He. cbn zeta. rewrite (register_done _ _ _ Hv Hm Hw).
  pose proof (validationResult_nil _ Hv) as Hr. unfold register_chain, rule in Hr.
  repeat (apply Forall_cons in Hr as [? Hr]). cbn [fst] in *.
  match goal with |- context [register cfg env' ?W b'] => set (w1 := W) end.
  assert (unused (by_email_id (sanitize (Body.email_id b'))) (admins w1) = false) as Hd.
  { unfold unused. subst w1. cbn [admins]. rewrite He.
    rewrite (findOne_app_new _ _ (registration env b)); [reflexivity| |].
    - now apply unused_true.
    - cbn. now apply bool_decide_eq_true. }
  assert ({| param := "email_id"; msg := "E-mail already in use" |}
            ∈ register_errors (admins w1) b') as Hin.
  { apply validationResult_failed. unfold register_chain, rule. rewrite Hd.
    repeat constructor. }
  split; [|exact Hin].
  unfold register. now rewrite (isEmpty_elem _ _ Hin).
Qed.

End Outcomes.

(** ** The further properties on concrete requests *)

Section OutcomeRuns.

Import Sample.

Lemma login_session_sound_witness :
  exists user,
    login_errors jane_login = []
    /\ findOne (account_query jane_login) (admins with_jane) = Some user
    /\ bcrypt_compare (sanitize (Body.password jane_login)) (password (doc user)) = true
    /\ isConfirmed (doc user) = true
    /\ status (doc user) = true
    /\ "Login Success." = "Login Success."
    /\ session_of cfg (jane_doc (account true true true)) = session_of cfg user.
Proof.
  exact (login_session_sound cfg later with_jane jane_login "Login Success."
           (session_of cfg (jane_doc (account true true true))) eq_refl).
Defined.

Lemma verifyConfirm_session_sound_witness :
  exists user,
    verifyConfirm_errors (request "jane@x.com" "" "407418") = []
    /\ findOne (account_query (request "jane@x.com" "" "407418")) (admins with_jane)
       = Some user
    /\ confirmOTP (doc user) = Some (sanitize (Body.otp (request "jane@x.com" "" "407418")))
    /\ session_of cfg (jane_doc (account true true true)) = session_of cfg user.
Proof.
  exact (verifyConfirm_session_sound cfg later with_jane (request "jane@x.com" "" "407418")
           "Login Success." (session_of cfg (jane_doc (account true true true))) eq_refl).
Defined.

Lemma register_failures_witness :
  register cfg env_undelivered empty jane = (Some (ErrorResponse DeliveryError), empty)
  /\ fst (register cfg env_refused empty jane) = Some (ErrorResponse StoreError).
Proof.
  assert (register_errors (admins empty) jane = []) as h1 by reflexivity.
  split.
  - exact (proj1 (register_failures cfg env_undelivered empty jane h1) eq_refl).
  - exact (f_equal fst (proj2 (register_failures cfg env_refused empty jane h1)
                          eq_refl eq_refl)).
Defined.

Lemma unknown_email_named_witness :
  verifyConfirm cfg env with_jane (request "joe@x.com" "" "407418")
  = (Some (unauthorizedResponse "Specified email not found."), with_jane)
  /\ resendConfirmOtp cfg env with_jane (request "joe@x.com" "" "")
     = (Some (unauthorizedResponse "Specified email not found."), with_jane).
Proof.
  assert (findOne (account_query (request "joe@x.com" "" "407418")) (admins with_jane)
          = None) as h1 by reflexivity.
  split.
  - exact (proj1 (unknown_email_named cfg env with_jane _ h1) eq_refl).
  - exact (proj2 (unknown_email_named cfg env with_jane (request "joe@x.com" "" "") h1)
             eq_refl).
Defined.

Lemma one_account_per_email_and_phone_witness :
  distinct email_id (admins with_jane)
  /\ distinct phone_number (admins with_jane)
  /\ length (admins (snd (register cfg later with_jane joe))) = 2
  /\ distinct email_id (admins (snd (register cfg later with_jane joe)))
  /\ distinct phone_number (admins (snd (register cfg later with_jane joe))).
Proof.
  assert (distinct email_id (admins with_jane)) as h1
    by (apply NoDup_singleton).
  assert (distinct phone_number (admins with_jane)) as h2
    by (apply NoDup_singleton).
  pose proof (proj1 (one_account_per_email_and_phone cfg later with_jane joe h1 h2))
    as [W1 W2].
  exact (conj h1 (conj h2 (conj eq_refl (conj W1 W2)))).
Defined.

Lemma otp_single_use_witness :
  verifyConfirm cfg later
    (snd (verifyConfirm cfg env with_jane (request "jane@x.com" "" "407418")))
    (request " jane@x.com" "" "407418")
  = (Some (unauthorizedResponse "Otp does not match"),
     snd (verifyConfirm cfg env with_jane (request "jane@x.com" "" "407418"))).
Proof.
  exact (otp_single_use cfg env with_jane (request "jane@x.com" "" "407418")
           (jane_doc (account true true true)) later (request " jane@x.com" "" "407418")
           eq_refl eq_refl eq_refl eq_refl eq_refl eq_refl).
Defined.



Lemma resend_bars_login_witness :
  isConfirmed (account true true true) = true
  /\ login cfg env with_jane_again jane_login
     = (Some (unauthorizedResponse
                "Account is not confirmed. Please confirm your account."),
        with_jane_again).
Proof.
  exact (conj eq_refl
           (resend_bars_login cfg later with_jane (request "jane@x.com" "" "")
              (jane_doc (account true true true)) env jane_login
              eq_refl eq_refl eq_refl eq_refl eq_refl eq_refl eq_refl)).
Defined.

Lemma wrong_guesses_never_lock_witness :
  attempts cfg env with_jane
    [request "jane@x.com" "" "000000"; request "jane@x.com" "" "000001";
     request "jane@x.com" "" "000002"]
  = with_jane.
Proof.
  refine (proj1 (wrong_guesses_never_lock cfg env with_jane
                   (jane_doc (account true true true))
                   [request "jane@x.com" "" "000000"; request "jane@x.com" "" "000001";
                    request "jane@x.com" "" "000002"]
                   (request "jane@x.com" "" "407418") eq_refl _ eq_refl eq_refl)).
  repeat constructor; discriminate.
Defined.

Lemma registered_can_login_witness :
  fst (login cfg later (snd (register cfg env empty jane)) jane)
  = Some (successResponseWithData "Login Success."
            (session_of cfg {| _id := 0; doc := registration env jane |})).
Proof.
  refine (registered_can_login cfg env empty jane later eq_refl eq_refl eq_refl _ eq_refl).
  intros data rounds salt. cbn. now apply bool_decide_eq_true.
Defined.

Lemma registered_email_taken_witness :
  sanitize (Body.email_id jane_twin) = sanitize (Body.email_id jane)
  /\ {| param := "email_id"; msg := "E-mail already in use" |}
       ∈ register_errors (admins (snd (register cfg env empty jane))) jane_twin.
Proof.
  exact (conj eq_refl
           (proj2 (registered_email_taken cfg env empty jane later jane_twin
                     eq_refl eq_refl eq_refl eq_refl))).
Defined.

End OutcomeRuns.

(** ** Properties of the delete handlers *)

Section Deletes.

Context `{Mongoose} {D : Type}.

Implicit Types (env : Env) (c : gmap string D) (id : string).

(** X17: StateDelete of a stored state removes it, and only once.  With a
    valid id of a stored document and the store applying the removal, the
    answer is the success message and the document is gone; the same
    request made again is answered not-found and changes nothing. *)
Theorem StateDelete_then_gone env c id (d : D) env' :
  isValid id = true ->
  Delete.findById id c = Some d ->
  store_accepts env = true ->
  fst (Delete.StateDelete env c id)
  = Some (Delete.successResponse "State delete Success.")
  /\ Delete.findById id (snd (Delete.StateDelete env c id)) = None
  /\ Delete.StateDelete env' (snd (Delete.StateDelete env c id)) id
     = (Some (Delete.notFoundResponse "State not exists with this id"),
        snd (Delete.StateDelete env c id)).
Proof.
  intros Hi Hd Hw. unfold Delete.StateDelete, Delete.findById in *.
  rewrite Hi, Hd, Hw. cbn [negb fst snd].
  now rewrite lookup_delete_eq.
Qed.


(** X19: a delete request never touches another document.  Whatever the
    id, valid or not, and whatever the store does, every document other
    than the one the id is cast to is, after StateDelete and after
    CauroselDelete, what it was before; and a request with an invalid id is
    answered with a validation error and removes nothing. *)
Theorem deletes_spare_the_rest env c id :
  (forall k, k <> toObjectId id ->
     snd (Delete.StateDelete env c id) !! k = c !! k
     /\ snd (Delete.CauroselDelete env c id) !! k = c !! k)
  /\ (isValid id = false ->
      Delete.StateDelete env c id
      = (Some (Delete.validationErrorWithData "Invalid Error." "Invalid ID"), c)
      /\ Delete.CauroselDelete env c id
         = (Some (Delete.validationErrorWithData "Invalid Id" "Invalid Data Id"), c)).
Proof.
  unfold Delete.StateDelete, Delete.CauroselDelete, Delete.findById. split.
  - intros k Hk.
    split; repeat case_match; cbn [snd]; rewrite ?lookup_delete_ne by congruence;
      reflexivity.
  - now intros ->.
Qed.

End Deletes.

Section DeleteRuns.

Import Sample.

Lemma StateDelete_then_gone_witness :
  isValid "5F1A2B3C4D5E6F7A8B9C0D1E" = true
  /\ Delete.findById "5F1A2B3C4D5E6F7A8B9C0D1E" states = Some "Illinois"
  /\ fst (Delete.StateDelete env states "5F1A2B3C4D5E6F7A8B9C0D1E")
     = Some (Delete.successResponse "State delete Success.")
  /\ Delete.findById "5f1a2b3c4d5e6f7a8b9c0d1e"
       (snd (Delete.StateDelete env states "5F1A2B3C4D5E6F7A8B9C0D1E")) = None.
Proof.
  assert (isValid "5F1A2B3C4D5E6F7A8B9C0D1E" = true) as h1 by reflexivity.
  assert (Delete.findById "5F1A2B3C4D5E6F7A8B9C0D1E" states = Some "Illinois") as h2
    by reflexivity.
  assert (store_accepts env = true) as h3 by reflexivity.
  destruct (StateDelete_then_gone env states _ _ later h1 h2 h3) as (W1 & W2 & _).
  exact (conj h1 (conj h2 (conj W1 W2))).
Defined.


End DeleteRuns.

(** ** What login reads of a body *)

Section Sanitized.

Context `{Validator, Bcrypt, Jwt}.
Variable cfg : Config.

(** X16: login reads the email and the password only through
    [.trim().escape()].  Two bodies that both pass the validation chain and
    agree on the sanitized email and the sanitized password are answered
    alike and leave the same world: blanks around a password do not count. *)
Theorem login_reads_sanitized (env : Env) (w : World) (b b' : Body.t) :
  login_errors b = [] ->
  login_errors b' = [] ->
  sanitize (Body.email_id b') = sanitize (Body.email_id b) ->
  sanitize (Body.password b') = sanitize (Body.password b) ->
  login cfg env w b' = login cfg env w b.
Proof.
  intros Hv Hv' He Hp. unfold login. now rewrite Hv, Hv', He, Hp.
Qed.

End Sanitized.

Section SanitizedRuns.

Import Sample.

Lemma login_reads_sanitized_witness :
  Body.password (request " jane@x.com " "  secret1 " "") <> Body.password jane_login
  /\ login cfg later with_jane (request " jane@x.com " "  secret1 " "")
     = login cfg later with_jane jane_login
  /\ exists data,
       fst (login cfg later with_jane jane_login)
       = Some (successResponseWithData "Login Success." data).
Proof.
  split; [discriminate|]. split.
  - exact (login_reads_sanitized cfg later with_jane jane_login
             (request " jane@x.com " "  secret1 " "") eq_refl eq_refl eq_refl eq_refl).
  - eexists. reflexivity.
Defined.

End SanitizedRuns.
